(** * BrewOS web app: demo mode and demo statistics

    A shallow embedding of two TypeScript modules of the BrewOS web
    application and the properties of them that the specification states.

    - [DemoMode] embeds [lib/demo-mode.ts]: the demo flag kept in
      [localStorage], the URL parameters [demo] and [exitDemo], and the
      fixed demo log.
    - [DemoStats] embeds [lib/demo-stats.ts]: the generators of the brew
      history, the power history, the daily summaries and the statistics
      snapshot.

    Conventions.  A JavaScript number that the code keeps integral (epoch
    seconds, results of [Math.floor] and [Math.round]) is a [Z]; any other
    number is a rational [Q], with exact arithmetic in place of IEEE
    doubles.  [Math.random()] is the next element of a sequence of
    rationals of [[0,1)].  The host objects ([window], [localStorage],
    [Date]) are explicit arguments. *)

From Stdlib Require Import ZArith QArith Qround Qabs List String Lia Lqa Permutation Sorted.
From stdpp Require Import gmap strings.

Import ListNotations.
Local Open Scope Z_scope.

(** ** Demo mode *)

Module DemoMode.

(** *** Host objects *)

(** [URLSearchParams]: the query string as its ordered list of name/value
    pairs; a name may occur more than once. *)
Definition URLSearchParams := list (string * string).

(** [params.get(name)]: the value of the first pair called [name], or
    [null]. *)
Fixpoint get (name : string) (params : URLSearchParams) : option string :=
  match params with
  | [] => None
  | (k, v) :: rest => if decide (k = name) then Some v else get name rest
  end.

(** [params.delete(name)]: drops every pair called [name]. *)
Fixpoint delete_param (name : string) (params : URLSearchParams) : URLSearchParams :=
  match params with
  | [] => []
  | (k, v) :: rest =>
      if decide (k = name) then delete_param name rest
      else (k, v) :: delete_param name rest
  end.

(** [window.location]: path, parsed query and fragment. *)
Record Location := {
  pathname : string;
  search : URLSearchParams;
  hash : string
}.

(** The host: [window] is absent outside a browser; [localStorage] is
    absent when the host has no storage or denies access to it. *)
Record Host := {
  window : option Location;
  localStorage : option (gmap string string)
}.

(** The exception raised when the identifier [localStorage] is evaluated
    in a host that has none. *)
Inductive Exception := ReferenceError (identifier : string).

(** A call either returns a value or throws; both leave a host behind. *)
Inductive Completion (A : Type) :=
| Return (v : A) (h : Host)
| Throw (e : Exception) (h : Host).
Arguments Return {A} v h.
Arguments Throw {A} e h.

Definition JS (A : Type) := Host -> Completion A.

Definition ret {A} (v : A) : JS A := fun h => Return v h.

Definition bind {A B} (m : JS A) (k : A -> JS B) : JS B :=
  fun h => match m h with
           | Return v h' => k v h'
           | Throw e h' => Throw e h'
           end.

Declare Scope js_scope.
Delimit Scope js_scope with js.
Notation "x <- m ;; k" := (bind m (fun x => k))
  (at level 100, m at next level, right associativity) : js_scope.
Notation "m ;;; k" := (bind m (fun _ => k))
  (at level 100, right associativity) : js_scope.
Local Open Scope js_scope.

(** The storage object, or the exception of a host without one. *)
Definition storage : JS (gmap string string) := fun h =>
  match localStorage h with
  | Some st => Return st h
  | None => Throw (ReferenceError "localStorage") h
  end.

Definition put_storage (st : gmap string string) : JS unit := fun h =>
  Return tt {| window := window h; localStorage := Some st |}.

Definition localStorage_getItem (key : string) : JS (option string) :=
  st <- storage ;; ret (st !! key).

Definition localStorage_setItem (key value : string) : JS unit :=
  st <- storage ;; put_storage (<[key := value]> st).

Definition localStorage_removeItem (key : string) : JS unit :=
  st <- storage ;; put_storage (delete key st).

(** [window.history.replaceState({}, "", newUrl)] where [newUrl] is
    [pathname + "?" + params] when [params] is not empty and [pathname]
    otherwise: in both cases the location keeps its path, its query becomes
    [params], and the fragment is dropped. *)
Definition history_replaceState (loc : Location) (params : URLSearchParams) : JS unit :=
  fun h => Return tt {| window := Some {| pathname := pathname loc;
                                           search := params;
                                           hash := "" |};
                        localStorage := localStorage h |}.

(** *** The module *)

Definition DEMO_MODE_KEY : string := "brewos-demo-mode".

Definition enableDemoMode : JS unit :=
  localStorage_setItem DEMO_MODE_KEY "true".

Definition disableDemoMode : JS unit :=
  localStorage_removeItem DEMO_MODE_KEY.

(** [params.get(name) === "true"] *)
Definition is_true (name : string) (params : URLSearchParams) : bool :=
  bool_decide (get name params = Some "true"%string).

(** The [console.log] of the enter branch has no effect on the host that
    is modelled and is left out. *)
Definition initDemoModeFromUrl : JS unit := fun h =>
  match window h with
  | None => Return tt h
  | Some loc =>
      let params := search loc in
      if is_true "exitDemo" params then
        (disableDemoMode ;;;
         history_replaceState loc (delete_param "exitDemo" params)) h
      else if is_true "demo" params then
        enableDemoMode h
      else Return tt h
  end.

(** The tail of [isDemoMode], reached when no URL parameter decided. *)
Definition check_localStorage : JS bool :=
  v <- localStorage_getItem DEMO_MODE_KEY ;;
  ret (bool_decide (v = Some "true"%string)).

Definition isDemoMode : JS bool := fun h =>
  match window h with
  | Some loc =>
      let params := search loc in
      if is_true "exitDemo" params then
        (disableDemoMode ;;;
         history_replaceState loc (delete_param "exitDemo" params) ;;;
         ret false) h
      else if is_true "demo" params then
        (enableDemoMode ;;; ret true) h
      else check_localStorage h
  | None => check_localStorage h
  end.

(** The durable flag as the module reads it. *)
Definition flag (st : gmap string string) : bool :=
  bool_decide (st !! DEMO_MODE_KEY = Some "true"%string).

(** A browser: both host objects are there. *)
Definition browser (loc : Location) (st : gmap string string) : Host :=
  {| window := Some loc; localStorage := Some st |}.

(** The host left by a call, whichever way it completed. *)
Definition host_after {A} (c : Completion A) : Host :=
  match c with
  | Return _ h => h
  | Throw _ h => h
  end.

(** A call of [isDemoMode] followed by [n] more; the result is that of
    the last call (of the call that threw, if one did). *)
Fixpoint isDemoMode_times (n : nat) (h : Host) : Completion bool :=
  match n with
  | O => isDemoMode h
  | S n' => match isDemoMode h with
            | Return _ h' => isDemoMode_times n' h'
            | Throw e h' => Throw e h'
            end
  end.

(** A link that carries both parameters. *)
Definition both_link : Location :=
  {| pathname := "/";
     search := [("demo", "true"); ("exitDemo", "true")]%string;
     hash := "" |}.

(** A link that enters the demo, and a page without parameters. *)
Definition demo_link : Location :=
  {| pathname := "/"; search := [("demo", "true")]%string; hash := "" |}.

Definition plain_page : Location :=
  {| pathname := "/stats"; search := [("tab", "power")]%string; hash := "" |}.

(** A storage in which the flag is set. *)
Definition demo_storage : gmap string string :=
  {[ DEMO_MODE_KEY := "true"%string ]}.

(** A host that is not a browser: neither object is there. *)
Definition no_host : Host := {| window := None; localStorage := None |}.

(** *** The demo log *)

(** [new Date(ms).toISOString()]: the instant that the string denotes. *)
Inductive ISOString := toISOString (ms : Z).

Definition instant (s : ISOString) : Z := let 'toISOString ms := s in ms.

Record LogEntry := {
  id : Z;
  time : ISOString;
  level : string;
  message : string;
  source : string
}.

(** [now] is [Date.now()] at the call, in milliseconds. *)
Definition getDemoLogs (now : Z) : list LogEntry :=
  let oneMinute := 60 * 1000 in
  [ {| id := now - 5 * oneMinute;
       time := toISOString (now - 5 * oneMinute);
       level := "info";
       message := "Machine powered on";
       source := "esp32" |};
    {| id := now - 4 * oneMinute;
       time := toISOString (now - 4 * oneMinute);
       level := "info";
       message := "WiFi connected to 'HomeNetwork' (192.168.1.100)";
       source := "esp32" |};
    {| id := now - 3 * oneMinute - 30 * 1000;
       time := toISOString (now - 3 * oneMinute - 30 * 1000);
       level := "info";
       message := "Pico controller connected";
       source := "esp32" |};
    {| id := now - 3 * oneMinute;
       time := toISOString (now - 3 * oneMinute);
       level := "info";
       message := "Heating started - target: 93.0°C";
       source := "pico" |};
    {| id := now - 2 * oneMinute - 30 * 1000;
       time := toISOString (now - 2 * oneMinute - 30 * 1000);
       level := "info";
       message := "Boiler temperature: 85.2°C";
       source := "pico" |};
    {| id := now - 2 * oneMinute;
       time := toISOString (now - 2 * oneMinute);
       level := "info";
       message := "Boiler temperature: 90.1°C";
       source := "pico" |};
    {| id := now - 1 * oneMinute - 30 * 1000;
       time := toISOString (now - 1 * oneMinute - 30 * 1000);
       level := "info";
       message := "Target temperature reached: 93.0°C";
       source := "pico" |};
    {| id := now - 1 * oneMinute;
       time := toISOString (now - 1 * oneMinute);
       level := "info";
       message := "Brewing started";
       source := "pico" |};
    {| id := now - 30 * 1000;
       time := toISOString (now - 30 * 1000);
       level := "info";
       message := "Brewing stopped - shot time: 28s";
       source := "pico" |};
    {| id := now - 10 * 1000;
       time := toISOString (now - 10 * 1000);
       level := "info";
       message := "System idle - maintaining temperature";
       source := "pico" |} ].

(** *** The demo schedules *)

Inductive Action := on | off.

Module Schedule.
Record t := {
  id : Z;
  enabled : bool;
  name : string;
  days : Z;
  hour : Z;
  minute : Z;
  action : Action;
  strategy : Z
}.
End Schedule.

Record Schedules := {
  schedules : list Schedule.t;
  autoPowerOffEnabled : bool;
  autoPowerOffMinutes : Z
}.

(** [days] is a bit mask: bit 0 is Sunday, bit 1 Monday, ..., bit 6
    Saturday.  The literals are [0b0111110], [0b1000001] and [0b1111111]. *)
Definition getDemoSchedules : Schedules :=
  {| schedules :=
       [ {| Schedule.id := 1;
            Schedule.enabled := true;
            Schedule.name := "Morning Coffee";
            Schedule.days := 62;
            Schedule.hour := 6;
            Schedule.minute := 30;
            Schedule.action := on;
            Schedule.strategy := 0 |};
         {| Schedule.id := 2;
            Schedule.enabled := true;
            Schedule.name := "Weekend Brunch";
            Schedule.days := 65;
            Schedule.hour := 9;
            Schedule.minute := 0;
            Schedule.action := on;
            Schedule.strategy := 0 |};
         {| Schedule.id := 3;
            Schedule.enabled := false;
            Schedule.name := "Evening Off";
            Schedule.days := 127;
            Schedule.hour := 22;
            Schedule.minute := 0;
            Schedule.action := off;
            Schedule.strategy := 0 |} ];
     autoPowerOffEnabled := true;
     autoPowerOffMinutes := 120 |}.

(** A schedule applies on the day of the week [d] ([Date.getDay()]). *)
Definition on_day (s : Schedule.t) (d : Z) : bool := Z.testbit (Schedule.days s) d.

(** *** Outcomes *)

Definition throws {A} (c : Completion A) : Prop :=
  match c with
  | Throw _ _ => True
  | Return _ _ => False
  end.

(** The storage of a host, empty when the host has none. *)
Definition stored (h : Host) : gmap string string :=
  match localStorage h with
  | Some st => st
  | None => ∅
  end.

End DemoMode.

(** ** Demo statistics *)

Module DemoStats.

(** *** Numbers *)

Definition Math_floor (x : Q) : Z := Qfloor x.

Definition Math_ceil (x : Q) : Z := Qceiling x.

(** [Math.round]: the nearest integer, a half going up. *)
Definition Math_round (x : Q) : Z := Qfloor (x + (1 # 2))%Q.

(** The comparisons [x < y], [x > y] and [x >= y]. *)
Definition Qltb (x y : Q) : bool := if Qlt_le_dec x y then true else false.
Definition Qgtb (x y : Q) : bool := Qltb y x.
Definition Qgeb (x y : Q) : bool := negb (Qltb x y).
Infix "<?" := Qltb (at level 70, no associativity) : Q_scope.
Infix ">?" := Qgtb (at level 70, no associativity) : Q_scope.
Infix ">=?" := Qgeb (at level 70, no associativity) : Q_scope.

(** [Math.round(x * 10) / 10] *)
Definition round1 (x : Q) : Q := (inject_Z (Math_round (x * 10)) / 10)%Q.

(** [Math.round(x * 100) / 100] *)
Definition round2 (x : Q) : Q := (inject_Z (Math_round (x * 100)) / 100)%Q.

(** [Math.round(x * 10000) / 10000] *)
Definition round4 (x : Q) : Q := (inject_Z (Math_round (x * 10000)) / 10000)%Q.

(** *** Dates *)

(** The local-time accessors of [Date], as functions of the instant in
    epoch milliseconds.  They depend on the time zone of the host. *)
Record Locale := {
  getDay : Z -> Z;
  getHours : Z -> Z;
  getMinutes : Z -> Z
}.

(** A host whose local time is UTC (1 January 1970 was a Thursday). *)
Definition UTC : Locale := {|
  getDay := fun ms => (ms / 86400000 + 4) mod 7;
  getHours := fun ms => (ms / 3600000) mod 24;
  getMinutes := fun ms => (ms / 60000) mod 60
|}.

(** *** Randomness *)

(** A generator runs against the sequence of values that [Math.random()]
    returns; its state is the number of values drawn so far. *)
Definition Gen (A : Type) := nat -> A * nat.

Definition ret {A} (v : A) : Gen A := fun n => (v, n).

Definition bind {A B} (m : Gen A) (k : A -> Gen B) : Gen B :=
  fun n => let (v, n') := m n in k v n'.

Declare Scope gen_scope.
Delimit Scope gen_scope with gen.
Notation "x <- m ;; k" := (bind m (fun x => k))
  (at level 100, m at next level, right associativity) : gen_scope.
Local Open Scope gen_scope.

(** The result of a generator started with no value drawn yet. *)
Definition run {A} (m : Gen A) : A := fst (m O).

(** [for (let i = lo; i < lo + n; i++) acc = body(i, acc)] *)
Fixpoint for_up {S} (n : nat) (i : Z) (body : Z -> S -> Gen S) (acc : S) : Gen S :=
  match n with
  | O => ret acc
  | Datatypes.S n' => acc' <- body i acc ;; for_up n' (i + 1) body acc'
  end.

(** [for (let i = hi; i > hi - n; i--) acc = body(i, acc)] *)
Fixpoint for_down {S} (n : nat) (i : Z) (body : Z -> S -> Gen S) (acc : S) : Gen S :=
  match n with
  | O => ret acc
  | Datatypes.S n' => acc' <- body i acc ;; for_down n' (i - 1) body acc'
  end.

(** The values that the loop variable takes in [for_up] and [for_down]. *)
Fixpoint up_from (i : Z) (n : nat) : list Z :=
  match n with
  | O => []
  | Datatypes.S n' => i :: up_from (i + 1) n'
  end.

Fixpoint down_from (i : Z) (n : nat) : list Z :=
  match n with
  | O => []
  | Datatypes.S n' => i :: down_from (i - 1) n'
  end.

(** [array.push(x)] *)
Definition push {A} (array : list A) (x : A) : list A := array ++ [x].

(** [array.sort(compare)]: the sort is stable, and for a comparator that
    orders the elements its result is the one sorted permutation that
    keeps equal elements in their order; an insertion sort computes it. *)
Section Sort.
Context {A : Type} (compare : A -> A -> Q).

Fixpoint sort_insert (x : A) (sorted : list A) : list A :=
  match sorted with
  | [] => [x]
  | y :: rest =>
      if (compare x y >? 0)%Q then y :: sort_insert x rest
      else x :: y :: rest
  end.

Fixpoint Array_sort (array : list A) : list A :=
  match array with
  | [] => []
  | x :: rest => sort_insert x (Array_sort rest)
  end.

End Sort.

(** *** Records of [./types] *)

Module BrewRecord.
Record t := {
  timestamp : Q;
  durationMs : Z;
  yieldWeight : Q;
  doseWeight : Q;
  peakPressure : Q;
  avgTemperature : Q;
  avgFlowRate : Q;
  rating : Z;
  ratio : Q
}.
End BrewRecord.

Module PowerSample.
Record t := {
  timestamp : Z;
  avgWatts : Z;
  maxWatts : Z;
  kwhConsumed : Q
}.
End PowerSample.

Module DailySummary.
Record t := {
  date : Z;
  shotCount : Z;
  totalBrewTimeMs : Z;
  totalKwh : Q;
  onTimeMinutes : Z;
  steamCycles : Z;
  avgBrewTimeMs : Z
}.
End DailySummary.

Module LifetimeStats.
Record t := {
  totalShots : Z;
  totalSteamCycles : Z;
  totalKwh : Q;
  totalOnTimeMinutes : Z;
  totalBrewTimeMs : Z;
  avgBrewTimeMs : Z;
  minBrewTimeMs : Z;
  maxBrewTimeMs : Z;
  firstShotTimestamp : Z
}.
End LifetimeStats.

Module PeriodStats.
Record t := {
  shotCount : Z;
  totalBrewTimeMs : Z;
  avgBrewTimeMs : Z;
  minBrewTimeMs : Z;
  maxBrewTimeMs : Z;
  totalKwh : Q
}.
End PeriodStats.

Module MaintenanceStats.
Record t := {
  shotsSinceBackflush : Z;
  shotsSinceGroupClean : Z;
  shotsSinceDescale : Z;
  lastBackflushTimestamp : Z;
  lastGroupCleanTimestamp : Z;
  lastDescaleTimestamp : Z
}.
End MaintenanceStats.

Module Statistics.
Record t := {
  lifetime : LifetimeStats.t;
  daily : PeriodStats.t;
  weekly : PeriodStats.t;
  monthly : PeriodStats.t;
  maintenance : MaintenanceStats.t;
  sessionShots : Z;
  sessionStartTimestamp : Z;
  totalShots : Z;
  totalSteamCycles : Z;
  totalKwh : Q;
  totalOnTimeMinutes : Z;
  shotsToday : Z;
  kwhToday : Q;
  onTimeToday : Z;
  shotsSinceDescale : Z;
  shotsSinceGroupClean : Z;
  shotsSinceBackflush : Z;
  lastDescaleTimestamp : Z;
  lastGroupCleanTimestamp : Z;
  lastBackflushTimestamp : Z;
  avgBrewTimeMs : Z;
  minBrewTimeMs : Z;
  maxBrewTimeMs : Z;
  dailyCount : Z;
  weeklyCount : Z;
  monthlyCount : Z
}.
End Statistics.

Module WeeklyShots.
Record t := {
  day : string;
  shots : Z
}.
End WeeklyShots.

Module HourlyCount.
Record t := {
  hour : Z;
  count : Z
}.
End HourlyCount.

Module ExtendedStatsResponse.
Record t := {
  stats : Statistics.t;
  weekly : list WeeklyShots.t;
  hourlyDistribution : list HourlyCount.t;
  brewHistory : list BrewRecord.t;
  powerHistory : list PowerSample.t;
  dailyHistory : list DailySummary.t
}.
End ExtendedStatsResponse.

(** [array.map((x, index) => f(x, index))]: the callback runs once per
    element, from left to right. *)
Fixpoint Array_map {A B} (f : A -> Z -> Gen B) (index : Z) (array : list A) : Gen (list B) :=
  match array with
  | [] => ret []
  | x :: rest =>
      y <- f x index ;;
      ys <- Array_map f (index + 1) rest ;;
      ret (y :: ys)
  end.

Definition day : Z := 86400.
Definition hour : Z := 3600.

(** A usage session of the power history. *)
Record Session := {
  startHour : Q;
  duration : Q;
  intensity : Q
}.

(** *** The generators *)

Section Generators.

(** [now] is the module constant [Math.floor(Date.now() / 1000)], fixed
    when the module is loaded; [tz] is the time zone of the host; [random]
    is the sequence of values that [Math.random()] returns. *)
Variable now : Z.
Variable tz : Locale.
Variable random : nat -> Q.

Definition Math_random : Gen Q := fun n => (random n, S n).

(** **** Brew history *)

Definition brewTimes : list Q :=
  [6.5; 7; 7.5; 8; 8.5; 9; 12; 12.5; 13; 14; 14.5; 15; 15.5; 16;
   17; 17.5; 18; 18.5; 19]%Q.

(** [brewTimes[index]], for an index within the array (the one the code
    computes is, [Math.random()] being below 1). *)
Definition brewTimes_at (index : Z) : Q := nth (Z.to_nat index) brewTimes 0%Q.

Definition draw_brewHour : Gen Q :=
  hourRand <- Math_random ;;
  if (hourRand <? 0.4)%Q then
    r <- Math_random ;; ret (6.5 + r * 2.5)%Q
  else if (hourRand <? 0.6)%Q then
    r <- Math_random ;; ret (14 + r * 2)%Q
  else if (hourRand <? 0.85)%Q then
    r <- Math_random ;; ret (17 + r * 2)%Q
  else
    r <- Math_random ;;
    ret (brewTimes_at (Math_floor (r * inject_Z (Z.of_nat (length brewTimes))))).

Definition draw_rating : Gen Z :=
  r <- Math_random ;;
  if (r <? 0.25)%Q then
    r' <- Math_random ;;
    if (r' >? 0.2)%Q then
      r'' <- Math_random ;; ret (4 + Math_floor (r'' * 2))
    else ret 3
  else ret 0.

(** One turn of the inner loop: the record that is pushed. *)
Definition brew (daysAgo : Z) : Gen BrewRecord.t :=
  brewHour <- draw_brewHour ;;
  r <- Math_random ;;
  let timestamp :=
    (inject_Z now - inject_Z daysAgo * inject_Z day
     - (24 - brewHour) * inject_Z hour
     + inject_Z (Math_floor (r * 3600)))%Q in
  r <- Math_random ;;
  let durationMs := 25000 + Math_floor (r * 10000) in
  r <- Math_random ;;
  let doseWeight := (17 + r * 4)%Q in
  r <- Math_random ;;
  let ratio := (1.8 + r * 0.7)%Q in
  let yieldWeight := (doseWeight * ratio)%Q in
  r <- Math_random ;;
  let peakPressure := (8.2 + r * 1.8)%Q in
  r <- Math_random ;;
  let avgTemperature := (92.5 + r * 3.5)%Q in
  r <- Math_random ;;
  let avgFlowRate := (1.8 + r * 1.2)%Q in
  rating <- draw_rating ;;
  ret {| BrewRecord.timestamp := timestamp;
         BrewRecord.durationMs := durationMs;
         BrewRecord.yieldWeight := round1 yieldWeight;
         BrewRecord.doseWeight := round1 doseWeight;
         BrewRecord.peakPressure := round1 peakPressure;
         BrewRecord.avgTemperature := round1 avgTemperature;
         BrewRecord.avgFlowRate := round1 avgFlowRate;
         BrewRecord.rating := rating;
         BrewRecord.ratio := round1 ratio |}.

Definition draw_numBrews (daysAgo : Z) (isWeekend isFriday : bool) : Gen Z :=
  if daysAgo =? 0 then
    r <- Math_random ;; ret (3 + Math_floor (r * 3))
  else if isWeekend then
    r <- Math_random ;; ret (4 + Math_floor (r * 4))
  else if isFriday then
    r <- Math_random ;; ret (3 + Math_floor (r * 3))
  else
    r <- Math_random ;; ret (2 + Math_floor (r * 4)).

(** [daysAgo > 0 && Math.random() < p]: no value is drawn for today. *)
Definition not_today_and_chance (daysAgo : Z) (p : Q) : Gen bool :=
  if 0 <? daysAgo then
    r <- Math_random ;; ret (r <? p)%Q
  else ret false.

(** One turn of the loop over the days. *)
Definition brewDay (daysAgo : Z) (brews : list BrewRecord.t) : Gen (list BrewRecord.t) :=
  let date := (now - daysAgo * day) * 1000 in
  let dayOfWeek := getDay tz date in
  let isWeekend := (dayOfWeek =? 0) || (dayOfWeek =? 6) in
  let isFriday := dayOfWeek =? 5 in
  numBrews <- draw_numBrews daysAgo isWeekend isFriday ;;
  skip <- not_today_and_chance daysAgo 0.05 ;;
  if skip then ret brews
  else
    for_up (Z.to_nat numBrews) 0
      (fun _ brews => b <- brew daysAgo ;; ret (push brews b)) brews.

Definition generateBrewHistory : Gen (list BrewRecord.t) :=
  brews <- for_up 21 0 brewDay [] ;;
  ret (Array_sort
         (fun a b => (BrewRecord.timestamp b - BrewRecord.timestamp a)%Q)
         brews).

(** **** Power history *)

Definition intervalSeconds : Z := 300.
Definition numSamples : Z := 288.

Definition usageSessions : list Session :=
  [ {| startHour := 6.5; duration := 2.5; intensity := 0.8 |};
    {| startHour := 14.0; duration := 2.0; intensity := 0.5 |};
    {| startHour := 18.0; duration := 2.0; intensity := 0.6 |} ].

(** [hourOfDay >= session.startHour &&
     hourOfDay < session.startHour + session.duration] *)
Definition in_session (hourOfDay : Q) (session : Session) : bool :=
  (hourOfDay >=? startHour session)%Q
  && (hourOfDay <? startHour session + duration session)%Q.

(** The loop over the sessions, left at the first match: the values of
    [inSession], [sessionIntensity] and [minutesIntoSession] after it. *)
Definition find_session (hourOfDay : Q) : bool * Q * Q :=
  match List.find (in_session hourOfDay) usageSessions with
  | Some session =>
      (true, intensity session, (hourOfDay - startHour session) * 60)%Q
  | None => (false, 0%Q, 0%Q)
  end.

(** The values of [avgWatts], [maxWatts] and [kwhConsumed] before they
    are rounded into the sample. *)
Definition draw_power (hourOfDay : Q) : Gen (Q * Q * Q) :=
  let '(inSession, sessionIntensity, minutesIntoSession) := find_session hourOfDay in
  if inSession then
    if (minutesIntoSession <? 20)%Q then
      let warmupProgress := (minutesIntoSession / 20)%Q in
      r <- Math_random ;;
      let avgWatts := (1400 - warmupProgress * 400 + r * 300)%Q in
      r <- Math_random ;;
      let maxWatts := (2000 - warmupProgress * 300 + r * 200)%Q in
      ret (avgWatts, maxWatts, (avgWatts * 300 / 3600000)%Q)
    else
      rand <- Math_random ;;
      if (rand <? sessionIntensity)%Q then
        if (rand <? sessionIntensity * 0.6)%Q then
          r <- Math_random ;;
          let avgWatts := (1200 + r * 500)%Q in
          r <- Math_random ;;
          let maxWatts := (1800 + r * 400)%Q in
          ret (avgWatts, maxWatts, (avgWatts * 300 / 3600000)%Q)
        else
          r <- Math_random ;;
          let avgWatts := (250 + r * 200)%Q in
          r <- Math_random ;;
          let maxWatts := (500 + r * 250)%Q in
          ret (avgWatts, maxWatts, (avgWatts * 300 / 3600000)%Q)
      else
        r <- Math_random ;;
        let avgWatts := (100 + r * 100)%Q in
        r <- Math_random ;;
        let maxWatts := (250 + r * 150)%Q in
        ret (avgWatts, maxWatts, (avgWatts * 300 / 3600000)%Q)
  else if (hourOfDay >=? 22)%Q || (hourOfDay <? 5)%Q then
    r <- Math_random ;;
    let avgWatts := (1 + r * 2)%Q in
    r <- Math_random ;;
    let maxWatts := (3 + r * 3)%Q in
    ret (avgWatts, maxWatts, 0.00005%Q)
  else
    rand <- Math_random ;;
    if (rand >? 0.92)%Q then
      r <- Math_random ;;
      let avgWatts := (150 + r * 150)%Q in
      r <- Math_random ;;
      let maxWatts := (300 + r * 200)%Q in
      ret (avgWatts, maxWatts, (avgWatts * 300 / 3600000)%Q)
    else ret (2%Q, 5%Q, 0.0001%Q).

(** One turn of the loop over the samples: the sample that is pushed. *)
Definition powerSample (i : Z) : Gen PowerSample.t :=
  let timestamp := now - i * intervalSeconds in
  let date := timestamp * 1000 in
  let hourOfDay :=
    (inject_Z (getHours tz date) + inject_Z (getMinutes tz date) / 60)%Q in
  p <- draw_power hourOfDay ;;
  let '(avgWatts, maxWatts, kwhConsumed) := p in
  ret {| PowerSample.timestamp := timestamp;
         PowerSample.avgWatts := Math_round avgWatts;
         PowerSample.maxWatts := Math_round maxWatts;
         PowerSample.kwhConsumed := round4 kwhConsumed |}.

Definition generatePowerHistory : Gen (list PowerSample.t) :=
  for_down (Z.to_nat numSamples) (numSamples - 1)
    (fun i samples => s <- powerSample i ;; ret (push samples s)) [].

(** **** Daily summaries *)

Definition draw_baseShots (isWeekend isFriday : bool) : Gen Z :=
  if isWeekend then
    r <- Math_random ;; ret (4 + Math_floor (r * 3))
  else if isFriday then
    r <- Math_random ;; ret (3 + Math_floor (r * 2))
  else
    r <- Math_random ;; ret (2 + Math_floor (r * 3)).

(** One turn of the loop over the days: the summary that is pushed. *)
Definition dailySummary (daysAgo : Z) : Gen DailySummary.t :=
  let date := now - daysAgo * day in
  let midnight := Math_floor (inject_Z date / inject_Z day) * day in
  let dayOfWeek := getDay tz (midnight * 1000) in
  let isWeekend := (dayOfWeek =? 0) || (dayOfWeek =? 6) in
  let isFriday := dayOfWeek =? 5 in
  baseShots <- draw_baseShots isWeekend isFriday ;;
  noUsage <- not_today_and_chance daysAgo 0.1 ;;
  shotCount <-
    (if noUsage : bool then ret 0
     else
       r <- Math_random ;;
       ret (baseShots + (if daysAgo =? 0 then 2 else 0) + Math_floor (r * 2))) ;;
  if shotCount =? 0 then
    r <- Math_random ;;
    let totalKwh := (0.05 + r * 0.05)%Q in
    r <- Math_random ;;
    let onTimeMinutes := Math_floor (r * 20) in
    ret {| DailySummary.date := midnight;
           DailySummary.shotCount := 0;
           DailySummary.totalBrewTimeMs := 0;
           DailySummary.totalKwh := totalKwh;
           DailySummary.onTimeMinutes := onTimeMinutes;
           DailySummary.steamCycles := 0;
           DailySummary.avgBrewTimeMs := 0 |}
  else
    r <- Math_random ;;
    let avgBrewTimeMs := 27000 + Math_floor (r * 6000) in
    let totalBrewTimeMs := shotCount * avgBrewTimeMs in
    r <- Math_random ;;
    let baseKwh := (0.25 + r * 0.15)%Q in
    r <- Math_random ;;
    let perShotKwh := (0.06 + r * 0.04)%Q in
    let sessionBonus :=
      if shotCount >? 4 then (inject_Z (shotCount - 4) * 0.02)%Q else 0%Q in
    r <- Math_random ;;
    let totalKwh :=
      (baseKwh + inject_Z shotCount * perShotKwh + sessionBonus + r * 0.15)%Q in
    r <- Math_random ;;
    let warmupMinutes := 15 + Math_floor (r * 10) in
    let brewTimeMinutes := Math_ceil (inject_Z totalBrewTimeMs / 60000) in
    idleMinutes <-
      (if shotCount >? 1 then
         r <- Math_random ;; ret ((shotCount - 1) * (10 + Math_floor (r * 10)))
       else ret 0) ;;
    r <- Math_random ;;
    let onTimeMinutes :=
      warmupMinutes + brewTimeMinutes + idleMinutes + Math_floor (r * 20) in
    let steamProbability := if isWeekend then 0.6%Q else 0.3%Q in
    r <- Math_random ;;
    steamCycles <-
      (if (r <? steamProbability)%Q then
         r' <- Math_random ;;
         ret (Math_floor (r' * (if shotCount >? 3 then 4 else 2)) + 1)
       else
         r' <- Math_random ;; ret (Math_floor (r' * 2))) ;;
    ret {| DailySummary.date := midnight;
           DailySummary.shotCount := shotCount;
           DailySummary.totalBrewTimeMs := totalBrewTimeMs;
           DailySummary.totalKwh := round2 totalKwh;
           DailySummary.onTimeMinutes := onTimeMinutes;
           DailySummary.steamCycles := steamCycles;
           DailySummary.avgBrewTimeMs := avgBrewTimeMs |}.

Definition generateDailyHistory : Gen (list DailySummary.t) :=
  summaries <-
    for_up 30 0
      (fun daysAgo summaries =>
         s <- dailySummary daysAgo ;; ret (push summaries s)) [] ;;
  ret (rev summaries).

(** **** Statistics snapshot *)

Definition generateDemoStats : Gen Statistics.t :=
  ret {|
    Statistics.lifetime := {|
      LifetimeStats.totalShots := 1247;
      LifetimeStats.totalSteamCycles := 234;
      LifetimeStats.totalKwh := 89.3;
      LifetimeStats.totalOnTimeMinutes := 15420;
      LifetimeStats.totalBrewTimeMs := 35539500;
      LifetimeStats.avgBrewTimeMs := 28500;
      LifetimeStats.minBrewTimeMs := 18000;
      LifetimeStats.maxBrewTimeMs := 42000;
      LifetimeStats.firstShotTimestamp := now - 180 * day |};
    Statistics.daily := {|
      PeriodStats.shotCount := 3;
      PeriodStats.totalBrewTimeMs := 85500;
      PeriodStats.avgBrewTimeMs := 28500;
      PeriodStats.minBrewTimeMs := 26000;
      PeriodStats.maxBrewTimeMs := 31000;
      PeriodStats.totalKwh := 0.95 |};
    Statistics.weekly := {|
      PeriodStats.shotCount := 28;
      PeriodStats.totalBrewTimeMs := 798000;
      PeriodStats.avgBrewTimeMs := 28500;
      PeriodStats.minBrewTimeMs := 22000;
      PeriodStats.maxBrewTimeMs := 35000;
      PeriodStats.totalKwh := 7.2 |};
    Statistics.monthly := {|
      PeriodStats.shotCount := 124;
      PeriodStats.totalBrewTimeMs := 3534000;
      PeriodStats.avgBrewTimeMs := 28500;
      PeriodStats.minBrewTimeMs := 21000;
      PeriodStats.maxBrewTimeMs := 38000;
      PeriodStats.totalKwh := 28.5 |};
    Statistics.maintenance := {|
      MaintenanceStats.shotsSinceBackflush := 45;
      MaintenanceStats.shotsSinceGroupClean := 12;
      MaintenanceStats.shotsSinceDescale := 145;
      MaintenanceStats.lastBackflushTimestamp := now - 7 * day;
      MaintenanceStats.lastGroupCleanTimestamp := now - 2 * day;
      MaintenanceStats.lastDescaleTimestamp := now - 30 * day |};
    Statistics.sessionShots := 3;
    Statistics.sessionStartTimestamp := now - 2700;
    Statistics.totalShots := 1247;
    Statistics.totalSteamCycles := 234;
    Statistics.totalKwh := 89.3;
    Statistics.totalOnTimeMinutes := 15420;
    Statistics.shotsToday := 3;
    Statistics.kwhToday := 0.95;
    Statistics.onTimeToday := 45;
    Statistics.shotsSinceDescale := 145;
    Statistics.shotsSinceGroupClean := 12;
    Statistics.shotsSinceBackflush := 45;
    Statistics.lastDescaleTimestamp := now - 30 * day;
    Statistics.lastGroupCleanTimestamp := now - 2 * day;
    Statistics.lastBackflushTimestamp := now - 7 * day;
    Statistics.avgBrewTimeMs := 28500;
    Statistics.minBrewTimeMs := 22000;
    Statistics.maxBrewTimeMs := 35000;
    Statistics.dailyCount := 3;
    Statistics.weeklyCount := 28;
    Statistics.monthlyCount := 124 |}.

(** **** Weekly chart *)

(** [clock] is [Date.now()] at the call of [generateWeeklyData], in
    milliseconds: [new Date().getDay()] is the day of the week then. *)
Variable clock : Z.

Definition weekDays : list string :=
  ["Mon"; "Tue"; "Wed"; "Thu"; "Fri"; "Sat"; "Sun"]%string.

(** The callback of [days.map], for the day name [day] at [index]. *)
Definition weeklyShots (today : Z) (day : string) (index : Z) : Gen WeeklyShots.t :=
  let dayIndex := (index + 1) mod 7 in
  let isWeekend := (dayIndex =? 6) || (dayIndex =? 0) in
  if dayIndex =? today then
    ret {| WeeklyShots.day := day; WeeklyShots.shots := 3 |}
  else
    let baseShots := if isWeekend then 5 else 3 in
    r <- Math_random ;;
    let variance := Math_floor (r * 3) - 1 in
    ret {| WeeklyShots.day := day;
           WeeklyShots.shots := Z.max 1 (baseShots + variance) |}.

Definition generateWeeklyData : Gen (list WeeklyShots.t) :=
  let today := getDay tz clock in
  Array_map (weeklyShots today) 0 weekDays.

(** **** Hourly distribution *)

Definition hourPatterns : gmap Z Z :=
  list_to_map
    [(6, 3); (7, 12); (8, 15); (9, 8); (10, 4); (11, 2); (12, 3); (13, 2);
     (14, 5); (15, 7); (16, 4); (17, 3); (18, 4); (19, 2); (20, 1)].

(** [hourPatterns[hour] || 0] *)
Definition baseCount_of (hour : Z) : Z :=
  match hourPatterns !! hour with
  | Some n => if n =? 0 then 0 else n
  | None => 0
  end.

(** One turn of the loop over the hours: the entry that is pushed. *)
Definition hourlyCount (hour : Z) : Gen HourlyCount.t :=
  let baseCount := baseCount_of hour in
  r <- Math_random ;;
  let variance := Math_floor (r * 3) - 1 in
  ret {| HourlyCount.hour := hour;
         HourlyCount.count := Z.max 0 (baseCount + variance) |}.

Definition generateHourlyDistribution : Gen (list HourlyCount.t) :=
  for_up 24 0
    (fun hour distribution => e <- hourlyCount hour ;; ret (push distribution e))
    [].

(** **** The bundle *)

Definition getDemoExtendedStats : Gen ExtendedStatsResponse.t :=
  stats <- generateDemoStats ;;
  weekly <- generateWeeklyData ;;
  hourlyDistribution <- generateHourlyDistribution ;;
  brewHistory <- generateBrewHistory ;;
  powerHistory <- generatePowerHistory ;;
  dailyHistory <- generateDailyHistory ;;
  ret {| ExtendedStatsResponse.stats := stats;
         ExtendedStatsResponse.weekly := weekly;
         ExtendedStatsResponse.hourlyDistribution := hourlyDistribution;
         ExtendedStatsResponse.brewHistory := brewHistory;
         ExtendedStatsResponse.powerHistory := powerHistory;
         ExtendedStatsResponse.dailyHistory := dailyHistory |}.

End Generators.

(** [date.getHours() + date.getMinutes() / 60] for the date of a
    timestamp in epoch seconds. *)
Definition hourOfDay (tz : Locale) (timestamp : Z) : Q :=
  (inject_Z (getHours tz (timestamp * 1000))
   + inject_Z (getMinutes tz (timestamp * 1000)) / 60)%Q.

(** Every value of [Math.random()] lies in [[0, 1)]. *)
Definition unit_interval (random : nat -> Q) : Prop :=
  forall n, (0 <= random n < 1)%Q.

(** *** Properties of the generated values *)

(** The values drawn for a power sample: [maxWatts] is not below
    [avgWatts]; and either the sample is a standby one, with [avgWatts] in
    [[1, 3)] and a constant energy, or [avgWatts] is at least 100 and the
    energy is derived from it. *)
Definition power_draw_ok (p : Q * Q * Q) : Prop :=
  let '(avgWatts, maxWatts, kwhConsumed) := p in
  (avgWatts <= maxWatts)%Q
  /\ (((1 <= avgWatts < 3)%Q /\ (kwhConsumed = 0.00005%Q \/ kwhConsumed = 0.0001%Q))
      \/ ((100 <= avgWatts)%Q /\ kwhConsumed = (avgWatts * 300 / 3600000)%Q)).

(** The timestamp of a brew record is in the 21 days that end at [now]. *)
Definition in_window (now : Z) (b : BrewRecord.t) : Prop :=
  (inject_Z now - inject_Z (21 * day) < BrewRecord.timestamp b < inject_Z now)%Q.




(** The midnight of the day [daysAgo] days before [now], as integer
    arithmetic. *)
Definition midnight_of (now daysAgo : Z) : Z := (now / day - daysAgo) * day.

(** A daily summary has the date of its day, and its brew times agree
    with its shot count. *)
Definition daily_ok (now daysAgo : Z) (s : DailySummary.t) : Prop :=
  DailySummary.date s = midnight_of now daysAgo
  /\ 0 <= DailySummary.shotCount s
  /\ (DailySummary.shotCount s = 0 ->
      DailySummary.totalBrewTimeMs s = 0 /\ DailySummary.avgBrewTimeMs s = 0)
  /\ (0 < DailySummary.shotCount s ->
      DailySummary.totalBrewTimeMs s
      = DailySummary.shotCount s * DailySummary.avgBrewTimeMs s).

(** The ranges of the fields of a brew record. *)
Definition brew_in_range (b : BrewRecord.t) : Prop :=
  25000 <= BrewRecord.durationMs b <= 34999
  /\ (BrewRecord.rating b = 0 \/ 3 <= BrewRecord.rating b <= 5)
  /\ (17 <= BrewRecord.doseWeight b <= 21)%Q
  /\ (1.8 <= BrewRecord.ratio b <= 2.5)%Q
  /\ (30.6 <= BrewRecord.yieldWeight b <= 52.5)%Q
  /\ (8.2 <= BrewRecord.peakPressure b <= 10)%Q
  /\ (92.5 <= BrewRecord.avgTemperature b <= 96)%Q
  /\ (1.8 <= BrewRecord.avgFlowRate b <= 3)%Q.

(** The ranges of the fields of a power sample, and how far its energy
    is from the energy of its rounded power over five minutes. *)
Definition power_in_range (s : PowerSample.t) : Prop :=
  1 <= PowerSample.avgWatts s <= 1700
  /\ 3 <= PowerSample.maxWatts s <= 2200
  /\ (0.0001 <= PowerSample.kwhConsumed s <= 0.1417)%Q
  /\ (- (0.00015)
      <= PowerSample.kwhConsumed s - inject_Z (PowerSample.avgWatts s) * 300 / 3600000
      <= 0.00015)%Q.

(** The hour lies in one of the three usage sessions. *)
Definition session_hour (h : Q) : Prop :=
  (6.5 <= h < 9 \/ 14 <= h < 16 \/ 18 <= h < 20)%Q.

(** The hour lies in the night, 22:00 to 05:00. *)
Definition night_hour (h : Q) : Prop := (22 <= h \/ h < 5)%Q.

(** The power of a sample according to the local hour of its timestamp. *)
Definition power_by_hour (tz : Locale) (s : PowerSample.t) : Prop :=
  let h := hourOfDay tz (PowerSample.timestamp s) in
  (session_hour h ->
   100 <= PowerSample.avgWatts s /\ 250 <= PowerSample.maxWatts s)
  /\ (night_hour h ->
      PowerSample.avgWatts s <= 3 /\ PowerSample.maxWatts s <= 6)
  /\ (~ session_hour h -> ~ night_hour h ->
      (PowerSample.avgWatts s = 2 /\ PowerSample.maxWatts s = 5)
      \/ (150 <= PowerSample.avgWatts s <= 300
          /\ 300 <= PowerSample.maxWatts s <= 500)).

(** The ranges of the fields of a daily summary.  Every bound on an
    energy is closed: the code holds the double nearest to the value, and
    that can be the bound itself. *)
Definition daily_in_range (s : DailySummary.t) : Prop :=
  0 <= DailySummary.shotCount s <= 9
  /\ DailySummary.shotCount s <> 1
  /\ (DailySummary.shotCount s = 0 ->
      DailySummary.steamCycles s = 0
      /\ 0 <= DailySummary.onTimeMinutes s <= 19
      /\ (0.05 <= DailySummary.totalKwh s <= 0.1)%Q)
  /\ (0 < DailySummary.shotCount s ->
      27000 <= DailySummary.avgBrewTimeMs s <= 32999
      /\ 0 <= DailySummary.steamCycles s <= 4
      /\ 16 <= DailySummary.onTimeMinutes s <= 200
      /\ (0.37 <= DailySummary.totalKwh s <= 1.55)%Q).

(** A run in which [Math.random()] returns 0.5 every time, and a module
    loaded on 14 November 2023 at 12:00:00 UTC. *)
Definition half : nat -> Q := fun _ => 0.5%Q.
Definition noon : Z := 1699963200.


End DemoStats.

(** ** The demo banner *)

Module DemoBanner.
Import DemoMode.
Local Open Scope js_scope.

(** [window.location.href = url.pathname]: the page is loaded again at
    the same path, without query and without fragment.  [localStorage]
    outlives the load. *)
Definition navigate_to_pathname : JS unit := fun h =>
  match window h with
  | Some loc =>
      Return tt {| window := Some {| pathname := pathname loc;
                                     search := [];
                                     hash := "" |};
                   localStorage := localStorage h |}
  | None => Throw (ReferenceError "window") h
  end.

(** The handler of the Exit Demo button.  Without [onExit] it builds
    [new URL(window.location.href)], deletes [demo] from the parameters
    of that copy and navigates to the path of the copy. *)
Definition handleExit (onExit : option (JS unit)) : JS unit :=
  match onExit with
  | Some callback => callback
  | None => navigate_to_pathname
  end.

End DemoBanner.

(** ** The layout: hiding the header on scroll *)

Module Layout.
Import DemoStats.

(** An item of the navigation; its icon, a component, is left out. *)
Record NavItem := {
  name : string;
  href : string
}.

(** [s || "/"] for a string: the empty string is falsy. *)
Definition or_root (s : string) : string :=
  if decide (s = ""%string) then "/"%string else s.

(** [getNavigation(isCloud, deviceId)]; [deviceId] may be undefined, and
    an empty [deviceId] is falsy like an undefined one. *)
Definition getNavigation (isCloud : bool) (deviceId : option string) : list NavItem :=
  let basePath :=
    match deviceId with
    | Some device =>
        if isCloud && negb (bool_decide (device = ""%string))
        then ("/machine/" +:+ device)%string
        else ""%string
    | None => ""%string
    end in
  [ {| name := "Dashboard"; href := or_root basePath |};
    {| name := "Brewing"; href := basePath +:+ "/brewing" |};
    {| name := "Stats"; href := basePath +:+ "/stats" |};
    {| name := "Schedules"; href := basePath +:+ "/schedules" |};
    {| name := "Settings"; href := basePath +:+ "/settings" |} ].

(** [headerVisible] is React state; [lastScrollY] and [hasScrolled] are
    refs.  Scroll positions are pixels and may be fractional. *)
Record State := {
  headerVisible : bool;
  lastScrollY : Q;
  hasScrolled : bool
}.

Definition scrollThreshold : Q := 10.

Definition Math_abs (x : Q) : Q := Qabs x.

(** The comparison [x <= y]. *)
Definition Qleb (x y : Q) : bool := negb (y <? x)%Q.
Infix "<=?" := Qleb (at level 70, no associativity) : Q_scope.

(** The effect that installs the listener, for a scroll container at
    [scrollTop]: [lastScrollY.current = scrollContainer.scrollTop || 0]. *)
Definition mount (scrollTop : Q) (s : State) : State :=
  {| headerVisible := true;
     lastScrollY := if Qeq_bool scrollTop 0 then 0%Q else scrollTop;
     hasScrolled := false |}.

(** The effect of a route change (the container is there). *)
Definition routeChange (s : State) : State :=
  {| headerVisible := true; lastScrollY := 0; hasScrolled := false |}.

(** [handleScroll], with [currentScrollY = scrollContainer.scrollTop]. *)
Definition handleScroll (currentScrollY : Q) (s : State) : State :=
  if (currentScrollY <=? 0)%Q then
    {| headerVisible := true; lastScrollY := 0; hasScrolled := false |}
  else
    let hasScrolled' :=
      if negb (hasScrolled s) && (currentScrollY >? 0)%Q then true
      else hasScrolled s in
    let delta := (currentScrollY - lastScrollY s)%Q in
    if (Math_abs delta >? scrollThreshold)%Q && hasScrolled' then
      {| headerVisible :=
           if (delta >? 0)%Q && (currentScrollY >? 80)%Q then false
           else if (delta <? 0)%Q then true
           else headerVisible s;
         lastScrollY := currentScrollY;
         hasScrolled := hasScrolled' |}
    else
      {| headerVisible := headerVisible s;
         lastScrollY := lastScrollY s;
         hasScrolled := hasScrolled' |}.

(** What happens to the layout on a phone in portrait. *)
Inductive Event :=
| Mount (scrollTop : Q)
| RouteChange
| Scroll (currentScrollY : Q).

Definition step (s : State) (e : Event) : State :=
  match e with
  | Mount scrollTop => mount scrollTop s
  | RouteChange => routeChange s
  | Scroll y => handleScroll y s
  end.

(** The state of a freshly rendered layout, and the state after a
    sequence of events. *)
Definition initial : State :=
  {| headerVisible := true; lastScrollY := 0; hasScrolled := false |}.

Definition after (events : list Event) : State := fold_left step events initial.

(** While the header is hidden, the user has scrolled and the position
    last recorded is below the 80 pixels of the header. *)
Definition hidden_is_justified (s : State) : Prop :=
  headerVisible s = false -> hasScrolled s = true /\ (80 < lastScrollY s)%Q.

End Layout.

(** * Properties of the demo mode *)

Module DemoModeSpec.
Import DemoMode.

Lemma get_delete_param_ne (name other : string) (params : URLSearchParams) :
  name <> other -> get name (delete_param other params) = get name params.
Proof.
  intros Hne. induction params as [|[k v] rest IH]; simpl; [reflexivity|].
  destruct (decide (k = other)) as [->|Hk]; simpl.
  - destruct (decide (other = name)); [congruence | exact IH].
  - destruct (decide (k = name)); [reflexivity | exact IH].
Qed.

Lemma get_delete_param_eq (name : string) (params : URLSearchParams) :
  get name (delete_param name params) = None.
Proof.
  induction params as [|[k v] rest IH]; simpl; [reflexivity|].
  destruct (decide (k = name)) as [->|Hk]; simpl; [exact IH|].
  destruct (decide (k = name)); [contradiction | exact IH].
Qed.

Lemma is_true_delete_param_ne (name other : string) (params : URLSearchParams) :
  name <> other -> is_true name (delete_param other params) = is_true name params.
Proof. intros Hne. unfold is_true. now rewrite get_delete_param_ne. Qed.

Lemma is_true_delete_param_eq (name : string) (params : URLSearchParams) :
  is_true name (delete_param name params) = false.
Proof. unfold is_true. now rewrite get_delete_param_eq. Qed.

Lemma is_true_spec (name : string) (params : URLSearchParams) :
  is_true name params = true <-> get name params = Some "true"%string.
Proof. unfold is_true. apply bool_decide_eq_true. Qed.

(** What each branch of [isDemoMode] does in a browser. *)

Lemma isDemoMode_exit (loc : Location) (st : gmap string string) :
  is_true "exitDemo" (search loc) = true ->
  isDemoMode (browser loc st)
  = Return false
      (browser {| pathname := pathname loc;
                  search := delete_param "exitDemo" (search loc);
                  hash := "" |}
               (delete DEMO_MODE_KEY st)).
Proof. intros He. unfold isDemoMode. simpl. now rewrite He. Qed.

Lemma isDemoMode_enter (loc : Location) (st : gmap string string) :
  is_true "exitDemo" (search loc) = false ->
  is_true "demo" (search loc) = true ->
  isDemoMode (browser loc st)
  = Return true (browser loc (<[DEMO_MODE_KEY := "true"%string]> st)).
Proof. intros He Hd. unfold isDemoMode. simpl. now rewrite He, Hd. Qed.

Lemma isDemoMode_stored (loc : Location) (st : gmap string string) :
  is_true "exitDemo" (search loc) = false ->
  is_true "demo" (search loc) = false ->
  isDemoMode (browser loc st) = Return (flag st) (browser loc st).
Proof. intros He Hd. unfold isDemoMode. simpl. now rewrite He, Hd. Qed.

Lemma flag_delete (st : gmap string string) :
  flag (delete DEMO_MODE_KEY st) = false.
Proof. unfold flag. now rewrite lookup_delete_eq. Qed.

Lemma flag_insert (st : gmap string string) :
  flag (<[DEMO_MODE_KEY := "true"%string]> st) = true.
Proof. unfold flag. now rewrite lookup_insert_eq. Qed.

(** A call that finds the state it would itself leave changes nothing,
    however often it is repeated. *)
Lemma isDemoMode_times_fixed (v : bool) (h : Host) :
  isDemoMode h = Return v h ->
  forall n, isDemoMode_times n h = Return v h.
Proof.
  intros Hfix n. induction n as [|n IH]; simpl; [exact Hfix|].
  now rewrite Hfix.
Qed.

(** C1. When the query carries both [exitDemo=true] and [demo=true], a
    call of [isDemoMode] in a browser returns [false]; it leaves the
    storage without the demo key, so that the flag reads false, and the
    location without the [exitDemo] parameter: the exit check comes first. *)
Theorem isDemoMode_exit_wins (loc : Location) (st : gmap string string) :
  get "exitDemo" (search loc) = Some "true"%string ->
  get "demo" (search loc) = Some "true"%string ->
  exists loc' st',
    isDemoMode (browser loc st) = Return false (browser loc' st')
    /\ st' !! DEMO_MODE_KEY = None
    /\ flag st' = false
    /\ get "exitDemo" (search loc') = None.
Proof.
  intros He _. apply is_true_spec in He.
  eexists _, _. split; [apply (isDemoMode_exit _ _ He)|].
  split; [apply lookup_delete_eq|].
  split; [apply flag_delete|].
  apply get_delete_param_eq.
Qed.

Lemma isDemoMode_exit_wins_witness :
  exists loc' st',
    isDemoMode (browser both_link {[ DEMO_MODE_KEY := "true"%string ]})
    = Return false (browser loc' st')
    /\ st' !! DEMO_MODE_KEY = None
    /\ flag st' = false
    /\ get "exitDemo" (search loc') = None.
Proof.
  apply (isDemoMode_exit_wins both_link {[ DEMO_MODE_KEY := "true"%string ]});
    reflexivity.
Defined.

(** The second of two calls on the link with both parameters finds
    [demo=true] alone and turns the flag on again. *)
Lemma isDemoMode_both_link_once :
  isDemoMode (browser both_link ∅)
  = Return false
      (browser {| pathname := "/"; search := [("demo", "true")]%string; hash := "" |} ∅).
Proof.
  rewrite isDemoMode_exit by reflexivity. simpl.
  now rewrite delete_empty.
Qed.

Lemma isDemoMode_both_link_twice :
  isDemoMode_times 1 (browser both_link ∅)
  = Return true
      (browser {| pathname := "/"; search := [("demo", "true")]%string; hash := "" |}
               {[ DEMO_MODE_KEY := "true"%string ]}).
Proof.
  cbn [isDemoMode_times]. rewrite isDemoMode_both_link_once.
  now rewrite isDemoMode_enter by reflexivity.
Qed.

(** C7, as stated, fails: on a link with both [demo=true] and
    [exitDemo=true] and an empty storage, two calls of [isDemoMode] end
    with the flag set, one call ends with the flag cleared. *)
Lemma isDemoMode_twice_differs :
  host_after (isDemoMode_times 1 (browser both_link ∅))
  <> host_after (isDemoMode (browser both_link ∅)).
Proof.
  rewrite isDemoMode_both_link_twice, isDemoMode_both_link_once. simpl.
  intros Heq.
  assert (Hst : ({[ DEMO_MODE_KEY := "true"%string ]} : gmap string string) = ∅)
    by (unfold browser in Heq; congruence).
  apply (f_equal (fun m : gmap string string => m !! DEMO_MODE_KEY)) in Hst.
  rewrite lookup_singleton_eq, lookup_empty in Hst. discriminate.
Qed.

(** C7, amended.  In a browser:
    - two calls of [enableDemoMode] leave the flag true, and the second
      changes nothing;
    - when the query has neither [demo=true] nor [exitDemo=true] (in
      particular when it has neither parameter), every one of any number of
      calls of [isDemoMode] returns the stored flag and leaves the storage
      and the location as they were;
    - unless the query has both [exitDemo=true] and [demo=true], any
      number of further calls of [isDemoMode] leaves the storage and the
      location as the first call left them. *)
Theorem demo_state_idempotent (loc : Location) (st : gmap string string) :
  (exists st',
      enableDemoMode (browser loc st) = Return tt (browser loc st')
      /\ enableDemoMode (browser loc st') = Return tt (browser loc st')
      /\ flag st' = true)
  /\ (get "exitDemo" (search loc) <> Some "true"%string ->
      get "demo" (search loc) <> Some "true"%string ->
      forall n,
        isDemoMode_times n (browser loc st) = Return (flag st) (browser loc st))
  /\ (~ (get "exitDemo" (search loc) = Some "true"%string
         /\ get "demo" (search loc) = Some "true"%string) ->
      forall n,
        host_after (isDemoMode_times n (browser loc st))
        = host_after (isDemoMode (browser loc st))).
Proof.
  split; [|split].
  - exists (<[DEMO_MODE_KEY := "true"%string]> st).
    split; [reflexivity|]. split; [|apply flag_insert].
    unfold enableDemoMode, localStorage_setItem, bind, storage, put_storage, browser.
    simpl. now rewrite insert_insert_eq.
  - intros He Hd n.
    apply isDemoMode_times_fixed, isDemoMode_stored.
    + destruct (is_true "exitDemo" (search loc)) eqn:E; [|reflexivity].
      now apply is_true_spec in E.
    + destruct (is_true "demo" (search loc)) eqn:E; [|reflexivity].
      now apply is_true_spec in E.
  - intros Hboth n.
    destruct n as [|n]; [reflexivity|]. cbn [isDemoMode_times].
    destruct (is_true "exitDemo" (search loc)) eqn:He;
      destruct (is_true "demo" (search loc)) eqn:Hd.
    + exfalso. apply Hboth. split; now apply is_true_spec.
    + rewrite (isDemoMode_exit _ _ He).
      erewrite isDemoMode_times_fixed; [reflexivity|].
      rewrite isDemoMode_stored; simpl.
      * now rewrite flag_delete.
      * apply is_true_delete_param_eq.
      * now rewrite is_true_delete_param_ne.
    + rewrite (isDemoMode_enter _ _ He Hd).
      erewrite isDemoMode_times_fixed; [reflexivity|].
      rewrite (isDemoMode_enter _ _ He Hd).
      now rewrite insert_insert_eq.
    + rewrite (isDemoMode_stored _ _ He Hd).
      now rewrite (isDemoMode_times_fixed _ _ (isDemoMode_stored _ _ He Hd)).
Qed.

Lemma demo_state_idempotent_witness :
  (forall n,
      isDemoMode_times n (browser plain_page demo_storage)
      = Return true (browser plain_page demo_storage))
  /\ (forall n,
      host_after (isDemoMode_times n (browser demo_link ∅))
      = host_after (isDemoMode (browser demo_link ∅))).
Proof.
  split.
  - apply (demo_state_idempotent plain_page demo_storage); discriminate.
  - apply (demo_state_idempotent demo_link ∅).
    intros [He _]. discriminate He.
Defined.

(** The sibling [initDemoModeFromUrl] returns at once in a host without
    [window], whatever else the host has. *)
Lemma initDemoModeFromUrl_no_window (st : option (gmap string string)) :
  initDemoModeFromUrl {| window := None; localStorage := st |}
  = Return tt {| window := None; localStorage := st |}.
Proof. reflexivity. Qed.

(** Without [localStorage] every path of [isDemoMode] throws, with or
    without [window]. *)
Lemma isDemoMode_no_localStorage (w : option Location) :
  isDemoMode {| window := w; localStorage := None |}
  = Throw (ReferenceError "localStorage") {| window := w; localStorage := None |}.
Proof.
  unfold isDemoMode. destruct w as [loc|]; simpl; [|reflexivity].
  destruct (is_true "exitDemo" (search loc)); [reflexivity|].
  destruct (is_true "demo" (search loc)); reflexivity.
Qed.

(** Without [window] but with [localStorage], [isDemoMode] returns the
    stored flag. *)
Lemma isDemoMode_no_window (st : gmap string string) :
  isDemoMode {| window := None; localStorage := Some st |}
  = Return (flag st) {| window := None; localStorage := Some st |}.
Proof. reflexivity. Qed.

(** C8 (the code departs from it).  In a host with neither [window] nor
    [localStorage], [isDemoMode] does not return [false]: it skips the
    block guarded by [typeof window], evaluates [localStorage.getItem] and
    throws. *)
Theorem isDemoMode_throws_without_host :
  isDemoMode no_host = Throw (ReferenceError "localStorage") no_host.
Proof. apply isDemoMode_no_localStorage. Qed.

(** C9. [getDemoLogs] returns ten entries; each has the level [info], a
    message that is not empty and the source [esp32] or [pico]; its [id]
    and its [time] are the same instant, which lies in the five minutes
    before the call; the instants increase strictly along the list. *)
Theorem getDemoLogs_shape (now : Z) :
  length (getDemoLogs now) = 10%nat
  /\ Forall (fun e =>
       level e = "info"%string
       /\ message e <> ""%string
       /\ (source e = "esp32"%string \/ source e = "pico"%string)
       /\ id e = instant (time e)
       /\ now - 5 * 60 * 1000 <= instant (time e) < now) (getDemoLogs now)
  /\ StronglySorted Z.lt (map (fun e => instant (time e)) (getDemoLogs now)).
Proof.
  split; [reflexivity|]. split.
  - unfold getDemoLogs.
    repeat (constructor;
            [simpl; repeat split;
             (discriminate || (left; reflexivity) || (right; reflexivity) || lia) |]).
    constructor.
  - unfold getDemoLogs. simpl.
    repeat (constructor; [|repeat (constructor; [lia|]); constructor]).
    constructor.
Qed.

End DemoModeSpec.

(** * Properties of the demo statistics *)

Module DemoStatsSpec.
Import DemoStats.
Local Open Scope gen_scope.

(** *** Numbers *)

Lemma Qltb_true (x y : Q) : (x <? y)%Q = true -> (x < y)%Q.
Proof. unfold Qltb. now destruct (Qlt_le_dec x y). Qed.

Lemma Qltb_false (x y : Q) : (x <? y)%Q = false -> (y <= x)%Q.
Proof. unfold Qltb. now destruct (Qlt_le_dec x y). Qed.

Lemma Qgeb_true (x y : Q) : (x >=? y)%Q = true -> (y <= x)%Q.
Proof. unfold Qgeb, Qltb. now destruct (Qlt_le_dec x y). Qed.

Lemma Math_floor_scaled (r : Q) (k : Z) :
  (0 <= r < 1)%Q -> 0 < k -> 0 <= Math_floor (r * inject_Z k) < k.
Proof.
  intros [H0 H1] Hk. unfold Math_floor.
  assert (Hk' : (inject_Z 0 < inject_Z k)%Q) by (rewrite <- Zlt_Qlt; exact Hk).
  change (inject_Z 0) with 0%Q in Hk'.
  pose proof (Qfloor_le (r * inject_Z k)) as Hlo.
  pose proof (Qlt_floor (r * inject_Z k)) as Hhi.
  assert (Hx0 : (0 <= r * inject_Z k)%Q) by nra.
  assert (Hx1 : (r * inject_Z k < inject_Z k)%Q) by nra.
  split.
  - assert (H : (inject_Z 0 < inject_Z (Qfloor (r * inject_Z k) + 1))%Q)
      by (change (inject_Z 0) with 0%Q; lra).
    rewrite <- Zlt_Qlt in H. lia.
  - assert (H : (inject_Z (Qfloor (r * inject_Z k)) < inject_Z k)%Q) by lra.
    rewrite <- Zlt_Qlt in H. exact H.
Qed.

Lemma Math_round_le (x y : Q) : (x <= y)%Q -> Math_round x <= Math_round y.
Proof. intros H. unfold Math_round. apply Qfloor_resp_le. lra. Qed.

Lemma Math_round_Z (z : Z) : Math_round (inject_Z z) = z.
Proof.
  unfold Math_round.
  pose proof (Qfloor_le (inject_Z z + (1 # 2))) as Hlo.
  pose proof (Qlt_floor (inject_Z z + (1 # 2))) as Hhi.
  assert (H1 : (inject_Z (Qfloor (inject_Z z + (1 # 2))) < inject_Z (z + 1))%Q)
    by (rewrite (inject_Z_plus z 1); change (inject_Z 1) with 1%Q; lra).
  assert (H2 : (inject_Z z < inject_Z (Qfloor (inject_Z z + (1 # 2)) + 1))%Q) by lra.
  rewrite <- Zlt_Qlt in H1, H2. lia.
Qed.


(** *** Loops *)

Section Loops.
Context {A : Type} (f : Z -> Gen A).

(** A loop whose body pushes [f i] pushes one value per turn, in the order
    of the turns. *)
Lemma for_down_push (n : nat) : forall (i : Z) (acc : list A) (k : nat),
  exists l,
    fst (for_down n i (fun i l => s <- f i ;; ret (push l s)) acc k) = acc ++ l
    /\ Forall2 (fun j s => exists k', s = fst (f j k')) (down_from i n) l.
Proof.
  induction n as [|n IH]; intros i acc k.
  - exists []. split; [simpl; now rewrite app_nil_r | constructor].
  - cbn [for_down]. unfold bind at 1. unfold bind at 1.
    destruct (f i k) as [s k1] eqn:Hs. cbn [ret].
    destruct (IH (i - 1) (push acc s) k1) as (l & Hl & HF).
    exists (s :: l). split.
    + rewrite Hl. unfold push. now rewrite <- app_assoc.
    + constructor; [|exact HF]. exists k. now rewrite Hs.
Qed.

Lemma for_up_push (n : nat) : forall (i : Z) (acc : list A) (k : nat),
  exists l,
    fst (for_up n i (fun i l => s <- f i ;; ret (push l s)) acc k) = acc ++ l
    /\ Forall2 (fun j s => exists k', s = fst (f j k')) (up_from i n) l.
Proof.
  induction n as [|n IH]; intros i acc k.
  - exists []. split; [simpl; now rewrite app_nil_r | constructor].
  - cbn [for_up]. unfold bind at 1. unfold bind at 1.
    destruct (f i k) as [s k1] eqn:Hs. cbn [ret].
    destruct (IH (i + 1) (push acc s) k1) as (l & Hl & HF).
    exists (s :: l). split.
    + rewrite Hl. unfold push. now rewrite <- app_assoc.
    + constructor; [|exact HF]. exists k. now rewrite Hs.
Qed.

End Loops.

(** An invariant of the accumulator that every turn keeps holds after the
    loop. *)
Lemma for_up_invariant {S} (P : Z -> S -> Prop) (body : Z -> S -> Gen S) (n : nat) :
  forall (i : Z) (acc : S) (k : nat),
    (forall j a k', i <= j < i + Z.of_nat n -> P j a -> P (j + 1) (fst (body j a k'))) ->
    P i acc ->
    P (i + Z.of_nat n) (fst (for_up n i body acc k)).
Proof.
  induction n as [|n IH]; intros i acc k Hstep Hacc.
  - simpl. now rewrite Z.add_0_r.
  - cbn [for_up]. unfold bind. destruct (body i acc k) as [a k1] eqn:Hb.
    replace (i + Z.of_nat (Datatypes.S n)) with (i + 1 + Z.of_nat n) by lia.
    apply IH.
    + intros j a' k' Hj. apply Hstep. lia.
    + specialize (Hstep i acc k). rewrite Hb in Hstep. apply Hstep; [lia | exact Hacc].
Qed.



(** What holds of every value that a pushing loop can push holds of the
    list that it pushed. *)
Lemma pushed_Forall {A} (f : Z -> Gen A) (P : Z -> A -> Prop) (indices : list Z) (l : list A) :
  Forall2 (fun j s => exists k', s = fst (f j k')) indices l ->
  (forall j k', In j indices -> P j (fst (f j k'))) ->
  Forall2 P indices l.
Proof.
  induction 1 as [|j s indices l [k' ->] _ IH]; intros HP; constructor.
  - apply HP. now left.
  - apply IH. intros j' k'' Hin. apply HP. now right.
Qed.

Lemma Forall2_Forall_right {A B} (P : B -> Prop) (xs : list A) (ys : list B) :
  Forall2 (fun _ y => P y) xs ys -> Forall P ys.
Proof. induction 1; constructor; assumption. Qed.

Lemma Forall2_map_eq {A B C} (g : B -> C) (h : A -> C) (xs : list A) (ys : list B) :
  Forall2 (fun x y => g y = h x) xs ys -> map g ys = map h xs.
Proof. induction 1; simpl; congruence. Qed.

Lemma nth_map_down_from {A} (g : Z -> A) (d : A) (n : nat) : forall i j,
  (j < n)%nat -> nth j (map g (down_from i n)) d = g (i - Z.of_nat j).
Proof.
  induction n as [|n IH]; intros i j Hj; [lia|].
  destruct j as [|j]; simpl.
  - f_equal. lia.
  - rewrite IH by lia. f_equal. lia.
Qed.

Lemma down_from_length (n : nat) : forall i, length (down_from i n) = n.
Proof. induction n; intros; simpl; [reflexivity | now rewrite IHn]. Qed.

Lemma up_from_length (n : nat) : forall i, length (up_from i n) = n.
Proof. induction n; intros; simpl; [reflexivity | now rewrite IHn]. Qed.

Lemma down_from_bounds (n : nat) : forall i j,
  In j (down_from i n) -> i - Z.of_nat n < j <= i.
Proof.
  induction n as [|n IH]; intros i j; simpl; [tauto|].
  intros [<-|Hin]; [lia|]. apply IH in Hin. lia.
Qed.

Lemma up_from_bounds (n : nat) : forall i j,
  In j (up_from i n) -> i <= j < i + Z.of_nat n.
Proof.
  induction n as [|n IH]; intros i j; simpl; [tauto|].
  intros [<-|Hin]; [lia|]. apply IH in Hin. lia.
Qed.


Lemma down_from_increasing (g : Z -> Z) (n : nat) : forall i,
  (forall a b, a < b -> g b < g a) ->
  StronglySorted Z.lt (map g (down_from i n)).
Proof.
  induction n as [|n IH]; intros i Hg; simpl; constructor.
  - now apply IH.
  - apply List.Forall_forall. intros x Hx. apply in_map_iff in Hx.
    destruct Hx as (j & <- & Hj). apply down_from_bounds in Hj. apply Hg. lia.
Qed.

(** *** Power history *)

Section PowerHistory.
Variable now : Z.
Variable tz : Locale.
Variable random : nat -> Q.
Hypothesis random_range : unit_interval random.

(** Every usage session that contains the hour started before it. *)
Lemma find_session_cases (hourOfDay : Q) :
  find_session hourOfDay = (false, 0%Q, 0%Q)
  \/ exists intensity minutes,
       find_session hourOfDay = (true, intensity, minutes) /\ (0 <= minutes)%Q.
Proof.
  unfold find_session.
  destruct (List.find (in_session hourOfDay) usageSessions) as [s|] eqn:Hfind;
    [right | left; reflexivity].
  apply find_some in Hfind. destruct Hfind as [_ Hin].
  unfold in_session in Hin. apply andb_prop in Hin. destruct Hin as [Hge _].
  apply Qgeb_true in Hge.
  eexists _, _. split; [reflexivity|]. lra.
Qed.

Ltac draws k :=
  pose proof (random_range k);
  pose proof (random_range (S k));
  pose proof (random_range (S (S k))).

Ltac step_gen := cbv beta iota delta [bind Math_random ret fst snd].

Lemma draw_power_ok (hourOfDay : Q) (k : nat) :
  power_draw_ok (fst (draw_power random hourOfDay k)).
Proof.
  draws k. unfold draw_power.
  destruct (find_session_cases hourOfDay) as [-> | (sI & mins & -> & Hmins)].
  - destruct ((hourOfDay >=? 22)%Q || (hourOfDay <? 5)%Q).
    + step_gen. unfold power_draw_ok. split; [lra|]. left. split; [lra|]. now left.
    + step_gen. destruct (random k >? 0.92)%Q; step_gen; unfold power_draw_ok.
      * split; [lra|]. right. split; [lra|reflexivity].
      * split; [lra|]. left. split; [lra|]. now right.
  - destruct (mins <? 20)%Q eqn:Hwarm.
    + apply Qltb_true in Hwarm. step_gen. unfold power_draw_ok.
      assert (Hw : (mins / 20 == mins * (1 # 20))%Q) by field.
      split; [rewrite Hw; lra|]. right. split; [rewrite Hw; lra|reflexivity].
    + step_gen.
      destruct (random k <? sI)%Q; [destruct (random k <? sI * 0.6)%Q|];
        step_gen; unfold power_draw_ok;
        (split; [lra|]; right; split; [lra|reflexivity]).
Qed.

Lemma round4_standby (e : Q) :
  e = 0.00005%Q \/ e = 0.0001%Q -> (round4 e == 0.0001)%Q.
Proof. intros [-> | ->]; reflexivity. Qed.

(** The sample pushed at turn [i]. *)
Lemma powerSample_ok (i : Z) (k : nat) :
  let s := fst (powerSample now tz random i k) in
  PowerSample.timestamp s = now - i * 300
  /\ PowerSample.avgWatts s <= PowerSample.maxWatts s
  /\ ((1 <= PowerSample.avgWatts s <= 3
       /\ (PowerSample.kwhConsumed s == 0.0001)%Q)
      \/ exists watts : Q,
           (100 <= watts)%Q
           /\ PowerSample.avgWatts s = Math_round watts
           /\ PowerSample.kwhConsumed s = round4 (watts * 300 / 3600000)).
Proof.
  unfold powerSample. cbv beta iota zeta delta [bind].
  set (hourOfDay := (inject_Z _ + _)%Q).
  pose proof (draw_power_ok hourOfDay k) as Hok.
  destruct (draw_power random hourOfDay k) as [[[a m] e] k1].
  cbn [fst] in Hok. destruct Hok as [Ham Hcases].
  cbn [ret fst PowerSample.timestamp PowerSample.avgWatts PowerSample.maxWatts
       PowerSample.kwhConsumed].
  split; [reflexivity|]. split; [now apply Math_round_le|].
  destruct Hcases as [[Ha He] | [Ha He]].
  - left. split; [|now apply round4_standby].
    split.
    + rewrite <- (Math_round_Z 1). apply Math_round_le.
      change (inject_Z 1) with 1%Q. lra.
    + rewrite <- (Math_round_Z 3). apply Math_round_le.
      change (inject_Z 3) with 3%Q. lra.
  - right. exists a. split; [exact Ha|]. split; [reflexivity|]. now rewrite He.
Qed.






(** The loop pushes the samples of the turns 287 down to 0. *)
Lemma generatePowerHistory_pushed :
  Forall2 (fun i s => exists k, s = fst (powerSample now tz random i k))
          (down_from 287 288) (run (generatePowerHistory now tz random)).
Proof.
  unfold run, generatePowerHistory.
  destruct (for_down_push (powerSample now tz random) (Z.to_nat numSamples)
              (numSamples - 1) [] O) as (l & -> & HF).
  exact HF.
Qed.

End PowerHistory.


(** *** Sorting *)

Section SortByKey.
Context {A : Type} (key : A -> Q).

Lemma sort_insert_Permutation (x : A) (l : list A) :
  Permutation (x :: l) (sort_insert (fun a b => (key b - key a)%Q) x l).
Proof.
  induction l as [|y l IH]; simpl; [reflexivity|].
  destruct (key y - key x >? 0)%Q; [|reflexivity].
  rewrite perm_swap. now apply perm_skip.
Qed.

Lemma Array_sort_Permutation (l : list A) :
  Permutation l (Array_sort (fun a b => (key b - key a)%Q) l).
Proof.
  induction l as [|x l IH]; simpl; [reflexivity|].
  rewrite <- sort_insert_Permutation. now apply perm_skip.
Qed.

Lemma sort_insert_sorted (x : A) (l : list A) :
  StronglySorted (fun a b => (key b <= key a)%Q) l ->
  StronglySorted (fun a b => (key b <= key a)%Q) (sort_insert (fun a b => (key b - key a)%Q) x l).
Proof.
  induction 1 as [|y l Hsorted IH Hy]; simpl.
  - repeat constructor.
  - unfold Qgtb, Qltb.
    destruct (Qlt_le_dec 0 (key y - key x)) as [Hlt|Hle].
    + constructor; [exact IH|].
      apply (Permutation_Forall (sort_insert_Permutation x l)).
      constructor; [lra | exact Hy].
    + constructor; [now constructor|].
      constructor; [lra|].
      apply (List.Forall_impl _ (P := fun b => (key b <= key y)%Q)); [|exact Hy].
      intros b Hb. lra.
Qed.

Lemma Array_sort_sorted (l : list A) :
  StronglySorted (fun a b => (key b <= key a)%Q) (Array_sort (fun a b => (key b - key a)%Q) l).
Proof.
  induction l as [|x l IH]; simpl; [constructor | now apply sort_insert_sorted].
Qed.

End SortByKey.

(** *** Brew history *)

Section BrewHistory.
Variable now : Z.
Variable tz : Locale.
Variable random : nat -> Q.
Hypothesis random_range : unit_interval random.

Lemma brewTimes_at_range (index : Z) :
  0 <= index < 19 -> (6.5 <= brewTimes_at index <= 19)%Q.
Proof.
  intros Hi. unfold brewTimes_at.
  assert (Hn : (Z.to_nat index < 19)%nat) by lia.
  destruct (Z.to_nat index) as [|n]; [cbn; lra|].
  do 18 (destruct n as [|n]; [cbn; lra|]).
  lia.
Qed.

Lemma draw_brewHour_range (k : nat) :
  (6.5 <= fst (draw_brewHour random k) <= 19)%Q.
Proof.
  pose proof (random_range (S k)) as Hr.
  unfold draw_brewHour. cbv beta iota delta [bind Math_random].
  destruct (random k <? 0.4)%Q; [cbn [ret fst]; lra|].
  destruct (random k <? 0.6)%Q; [cbn [ret fst]; lra|].
  destruct (random k <? 0.85)%Q; [cbn [ret fst]; lra|].
  cbn [ret fst]. apply brewTimes_at_range.
  apply (Math_floor_scaled _ 19 Hr). lia.
Qed.

Lemma brew_ok (daysAgo : Z) (k : nat) :
  0 <= daysAgo <= 20 ->
  in_window now (fst (brew now random daysAgo k)).
Proof.
  intros Hd. unfold brew. cbv beta iota zeta delta [bind Math_random].
  pose proof (draw_brewHour_range k) as Hh.
  destruct (draw_brewHour random k) as [h k1]. cbn [fst] in Hh.
  destruct (draw_rating random _) as [rating k2]. cbn [ret fst].
  unfold in_window. cbn [BrewRecord.timestamp].
  pose proof (Math_floor_scaled _ 3600 (random_range k1) ltac:(lia)) as Hf.
  change (inject_Z 3600) with 3600%Q in Hf.
  destruct Hf as [Hf0 Hf1]. rewrite Zle_Qle in Hf0. rewrite Zlt_Qlt in Hf1.
  destruct Hd as [Hd0 Hd1]. rewrite Zle_Qle in Hd0, Hd1.
  change (inject_Z day) with 86400%Q. change (inject_Z hour) with 3600%Q.
  change (inject_Z (21 * day)) with 1814400%Q.
  change (inject_Z 0) with 0%Q in *. change (inject_Z 20) with 20%Q in *.
  change (inject_Z 3600) with 3600%Q in *.
  lra.
Qed.





Lemma draw_numBrews_today (isWeekend isFriday : bool) (k : nat) :
  3 <= fst (draw_numBrews random 0 isWeekend isFriday k).
Proof.
  unfold draw_numBrews. change (0 =? 0) with true.
  cbv beta iota delta [bind Math_random ret fst].
  pose proof (Math_floor_scaled _ 3 (random_range k) ltac:(lia)) as Hf.
  change (inject_Z 3) with 3%Q in Hf. lia.
Qed.

Lemma not_today_and_chance_today (p : Q) (k : nat) :
  fst (not_today_and_chance random 0 p k) = false.
Proof. reflexivity. Qed.

(** A day of the loop keeps the records it found, adds records that are
    in the window, and adds at least three of them when it is today. *)
Lemma brewDay_ok (daysAgo : Z) (brews : list BrewRecord.t) (k : nat) :
  0 <= daysAgo <= 20 ->
  exists added,
    fst (brewDay now tz random daysAgo brews k) = brews ++ added
    /\ Forall (in_window now) added
    /\ (daysAgo = 0 -> (3 <= length added)%nat).
Proof.
  intros Hd. unfold brewDay. cbv zeta. unfold bind at 1.
  set (isWeekend := (_ || _)). set (isFriday := (_ =? 5)).
  pose proof (draw_numBrews_today isWeekend isFriday k) as Hnum.
  destruct (draw_numBrews random daysAgo isWeekend isFriday k) as [numBrews k1] eqn:Hdraw.
  unfold bind at 1.
  pose proof (not_today_and_chance_today 0.05 k1) as Hskip.
  destruct (not_today_and_chance random daysAgo 0.05 k1) as [skip k2] eqn:Hchance.
  destruct skip.
  - exists []. cbn [ret fst]. split; [now rewrite app_nil_r|].
    split; [constructor|].
    intros ->. rewrite Hchance in Hskip. discriminate Hskip.
  - destruct (for_up_push (fun _ => brew now random daysAgo) (Z.to_nat numBrews) 0 brews k2)
      as (added & Hadded & Hpushed).
    exists added. split; [exact Hadded|]. split.
    + apply (Forall2_Forall_right _ (up_from 0 (Z.to_nat numBrews))).
      apply (pushed_Forall _ (fun _ b => in_window now b) _ _ Hpushed).
      intros _ k' _. now apply brew_ok.
    + intros ->. rewrite Hdraw in Hnum. cbn [fst] in Hnum.
      apply Forall2_length in Hpushed. rewrite up_from_length in Hpushed. lia.
Qed.

(** After the loop over the 21 days. *)
Lemma brew_days_ok :
  let brews := fst (for_up 21 0 (brewDay now tz random) [] O) in
  Forall (in_window now) brews /\ (3 <= length brews)%nat.
Proof.
  pose proof (for_up_invariant
                (fun i brews => Forall (in_window now) brews
                                /\ (0 < i -> (3 <= length brews)%nat))
                (brewDay now tz random) 21 0 [] O) as Hinv.
  cbv beta in Hinv. intros brews. fold brews in Hinv.
  destruct Hinv as [Hall Hlen].
  - intros j a k [Hj0 Hj1] [Ha Hla].
    destruct (brewDay_ok j a k ltac:(lia)) as (added & -> & Hadded & Htoday).
    split.
    + apply Forall_app. now split.
    + intros _. rewrite length_app.
      destruct (Z.eq_dec j 0) as [->|Hne]; [specialize (Htoday eq_refl); lia|].
      specialize (Hla ltac:(lia)). lia.
  - split; [constructor | lia].
  - split; [exact Hall | apply Hlen; lia].
Qed.





End BrewHistory.

(** *** Daily summaries *)

(** A bind runs its first generator and hands the value to the rest. *)
Lemma bind_inv {A B} (m : Gen A) (f : A -> Gen B) (k : nat) :
  exists v k', bind m f k = f v k' /\ v = fst (m k).
Proof. unfold bind. destruct (m k) as [v k']. now exists v, k'. Qed.

Ltac bind_step v H :=
  match goal with
  | |- context [bind ?m ?f ?k] =>
      let k' := fresh "k" in
      destruct (bind_inv m f k) as (v & k' & -> & H); cbv beta
  end.

Lemma rev_up_from (n : nat) : forall i,
  rev (up_from i n) = down_from (i + Z.of_nat n - 1) n.
Proof.
  assert (Hsnoc : forall n j, down_from j (S n) = down_from j n ++ [j - Z.of_nat n]).
  { clear. induction n as [|n IH]; intros j.
    - simpl. f_equal. lia.
    - change (down_from j (S (S n))) with (j :: down_from (j - 1) (S n)).
      rewrite IH. simpl. do 3 f_equal. lia. }
  induction n as [|n IH]; intros i; [reflexivity|].
  cbn [up_from rev]. rewrite IH, Hsnoc. f_equal; [f_equal; lia | f_equal; lia].
Qed.

Section DailyHistory.
Variable now : Z.
Variable tz : Locale.
Variable random : nat -> Q.
Hypothesis random_range : unit_interval random.

Lemma draw_baseShots_range (isWeekend isFriday : bool) (k : nat) :
  2 <= fst (draw_baseShots random isWeekend isFriday k).
Proof.
  unfold draw_baseShots.
  pose proof (Math_floor_scaled _ 3 (random_range k) ltac:(lia)) as H3.
  pose proof (Math_floor_scaled _ 2 (random_range k) ltac:(lia)) as H2.
  change (inject_Z 3) with 3%Q in H3. change (inject_Z 2) with 2%Q in H2.
  destruct isWeekend; [|destruct isFriday];
    cbv beta iota delta [bind Math_random ret fst]; lia.
Qed.

Lemma midnight_floor (daysAgo : Z) :
  Math_floor (inject_Z (now - daysAgo * day) / inject_Z day) * day
  = midnight_of now daysAgo.
Proof.
  unfold Math_floor, midnight_of. rewrite <- Zdiv_Qdiv. f_equal.
  replace (now - daysAgo * day) with (now + (- daysAgo) * day) by lia.
  rewrite Z.div_add by (unfold day; lia). lia.
Qed.

Lemma dailySummary_ok (daysAgo : Z) (k : nat) :
  daily_ok now daysAgo (fst (dailySummary now tz random daysAgo k)).
Proof.
  unfold dailySummary. cbv zeta. rewrite midnight_floor.
  bind_step baseShots Hbase.
  pose proof (draw_baseShots_range
                (let d := getDay tz (midnight_of now daysAgo * 1000) in (d =? 0) || (d =? 6))
                (getDay tz (midnight_of now daysAgo * 1000) =? 5) k) as Hrange.
  cbv zeta in Hrange. rewrite <- Hbase in Hrange.
  bind_step noUsage HnoUsage.
  bind_step shotCount HshotCount.
  assert (Hcount : shotCount = 0 \/ 2 <= shotCount).
  { destruct noUsage; [left; exact HshotCount | right].
    cbv beta iota delta [bind Math_random ret fst] in HshotCount.
    match type of HshotCount with
    | context [random ?n] =>
        pose proof (Math_floor_scaled _ 2 (random_range n) ltac:(lia)) as Hf
    end.
    change (inject_Z 2) with 2%Q in Hf.
    destruct (daysAgo =? 0); lia. }
  destruct (shotCount =? 0) eqn:Hzero.
  - repeat (let v := fresh "r" in let H := fresh "Hr" in bind_step v H).
    cbn [ret fst]. unfold daily_ok.
    cbn [DailySummary.date DailySummary.shotCount DailySummary.totalBrewTimeMs
         DailySummary.avgBrewTimeMs].
    repeat split; lia.
  - apply Z.eqb_neq in Hzero.
    repeat (let v := fresh "r" in let H := fresh "Hr" in bind_step v H).
    cbn [ret fst]. unfold daily_ok.
    cbn [DailySummary.date DailySummary.shotCount DailySummary.totalBrewTimeMs
         DailySummary.avgBrewTimeMs].
    repeat split; lia.
Qed.

(** The loop pushes the summaries of today back to 29 days ago. *)
Lemma generateDailyHistory_pushed :
  exists pushed,
    run (generateDailyHistory now tz random) = rev pushed
    /\ Forall2 (daily_ok now) (up_from 0 30) pushed.
Proof.
  unfold run, generateDailyHistory.
  destruct (bind_inv
              (for_up 30 0 (fun daysAgo summaries =>
                              s <- dailySummary now tz random daysAgo ;;
                              ret (push summaries s)) [])
              (fun summaries => ret (rev summaries)) O)
    as (pushed & k & -> & Hpushed).
  exists pushed. split; [reflexivity|].
  destruct (for_up_push (dailySummary now tz random) 30 0 [] O) as (l & Hl & HF).
  rewrite Hl in Hpushed. simpl in Hpushed. subst pushed.
  apply (pushed_Forall _ _ _ _ HF).
  intros j k' _. apply dailySummary_ok.
Qed.

End DailyHistory.

Lemma half_range : unit_interval half.
Proof. intros n. unfold half, Qle, Qlt. simpl. lia. Defined.

(** C2. [generatePowerHistory] returns 288 samples; their timestamps are
    [now - 287 * 300], ..., [now - 300], [now]: each is 300 seconds after
    the one before, so they increase strictly; and in every sample
    [maxWatts] is at least [avgWatts]. *)
Theorem generatePowerHistory_shape (now : Z) (tz : Locale) (random : nat -> Q) :
  unit_interval random ->
  let samples := run (generatePowerHistory now tz random) in
  length samples = 288%nat
  /\ map PowerSample.timestamp samples
     = map (fun i => now - i * 300) (down_from 287 288)
  /\ (forall i, (i + 1 < 288)%nat ->
        nth (i + 1) (map PowerSample.timestamp samples) 0
        = nth i (map PowerSample.timestamp samples) 0 + 300)
  /\ StronglySorted Z.lt (map PowerSample.timestamp samples)
  /\ Forall (fun s => PowerSample.avgWatts s <= PowerSample.maxWatts s) samples.
Proof.
  intros Hrandom samples.
  pose proof (generatePowerHistory_pushed now tz random) as Hpushed.
  fold samples in Hpushed.
  assert (Hts : map PowerSample.timestamp samples
                = map (fun i => now - i * 300) (down_from 287 288)).
  { apply Forall2_map_eq.
    apply (pushed_Forall _ (fun i s => PowerSample.timestamp s = now - i * 300)
             _ _ Hpushed).
    intros i k _. apply (powerSample_ok now tz random Hrandom i k). }
  split; [|split; [exact Hts|split; [|split]]].
  - apply Forall2_length in Hpushed. rewrite <- Hpushed. apply down_from_length.
  - intros i Hi. rewrite Hts.
    rewrite !nth_map_down_from by lia. lia.
  - rewrite Hts. apply down_from_increasing. intros a b Hab. lia.
  - apply (Forall2_Forall_right _ (down_from 287 288)).
    apply (pushed_Forall _ (fun _ s => PowerSample.avgWatts s <= PowerSample.maxWatts s)
             _ _ Hpushed).
    intros i k _. apply (powerSample_ok now tz random Hrandom i k).
Qed.

Lemma generatePowerHistory_shape_witness :
  let samples := run (generatePowerHistory noon UTC half) in
  length samples = 288%nat
  /\ map PowerSample.timestamp samples
     = map (fun i => noon - i * 300) (down_from 287 288)
  /\ (forall i, (i + 1 < 288)%nat ->
        nth (i + 1) (map PowerSample.timestamp samples) 0
        = nth i (map PowerSample.timestamp samples) 0 + 300)
  /\ StronglySorted Z.lt (map PowerSample.timestamp samples)
  /\ Forall (fun s => PowerSample.avgWatts s <= PowerSample.maxWatts s) samples.
Proof. exact (generatePowerHistory_shape noon UTC half half_range). Defined.

(** C3. [generateBrewHistory] returns a list that is not empty (today
    alone gives at least three records); the timestamp of every record
    lies strictly between [now - 21 * day] and [now]; and the timestamps
    never increase along the list. *)
Theorem generateBrewHistory_shape (now : Z) (tz : Locale) (random : nat -> Q) :
  unit_interval random ->
  let brews := run (generateBrewHistory now tz random) in
  brews <> []
  /\ (3 <= length brews)%nat
  /\ Forall (fun b =>
       (inject_Z now - inject_Z (21 * day) < BrewRecord.timestamp b < inject_Z now)%Q)
       brews
  /\ StronglySorted
       (fun a b => (BrewRecord.timestamp b <= BrewRecord.timestamp a)%Q) brews.
Proof.
  intros Hrandom brews.
  destruct (brew_days_ok now tz random Hrandom) as [Hall Hlen].
  unfold brews, run, generateBrewHistory, bind.
  destruct (for_up 21 0 (brewDay now tz random) [] O) as [pushed k] eqn:Hloop.
  cbn [fst] in Hall, Hlen. cbn [ret fst].
  pose proof (Array_sort_Permutation BrewRecord.timestamp pushed) as Hperm.
  assert (Hlen' : (3 <= length (Array_sort
                     (fun a b => (BrewRecord.timestamp b - BrewRecord.timestamp a)%Q)
                     pushed))%nat)
    by (rewrite <- (Permutation_length Hperm); exact Hlen).
  split; [|split; [exact Hlen'|split]].
  - intros Hnil. rewrite Hnil in Hlen'. simpl in Hlen'. lia.
  - apply (Permutation_Forall Hperm).
    apply (List.Forall_impl _ (P := in_window now)); [|exact Hall].
    intros b Hb. exact Hb.
  - apply (Array_sort_sorted BrewRecord.timestamp).
Qed.

Lemma generateBrewHistory_shape_witness :
  let brews := run (generateBrewHistory noon UTC half) in
  brews <> []
  /\ (3 <= length brews)%nat
  /\ Forall (fun b =>
       (inject_Z noon - inject_Z (21 * day) < BrewRecord.timestamp b < inject_Z noon)%Q)
       brews
  /\ StronglySorted
       (fun a b => (BrewRecord.timestamp b <= BrewRecord.timestamp a)%Q) brews.
Proof. exact (generateBrewHistory_shape noon UTC half half_range). Defined.

(** C4. [generateDailyHistory] returns 30 summaries.  In each of them
    [shotCount] is not negative; when it is 0, [totalBrewTimeMs] and
    [avgBrewTimeMs] are 0; when it is positive, [totalBrewTimeMs] is
    [shotCount * avgBrewTimeMs].  Their dates are the midnights of 29 days
    ago up to today, in this order, so they increase strictly. *)
Theorem generateDailyHistory_consistent (now : Z) (tz : Locale) (random : nat -> Q) :
  unit_interval random ->
  let summaries := run (generateDailyHistory now tz random) in
  length summaries = 30%nat
  /\ Forall (fun s =>
       0 <= DailySummary.shotCount s
       /\ (DailySummary.shotCount s = 0 ->
           DailySummary.totalBrewTimeMs s = 0 /\ DailySummary.avgBrewTimeMs s = 0)
       /\ (0 < DailySummary.shotCount s ->
           DailySummary.totalBrewTimeMs s
           = DailySummary.shotCount s * DailySummary.avgBrewTimeMs s))
       summaries
  /\ map DailySummary.date summaries
     = map (fun daysAgo => (now / day - daysAgo) * day) (down_from 29 30)
  /\ StronglySorted Z.lt (map DailySummary.date summaries).
Proof.
  intros Hrandom summaries.
  destruct (generateDailyHistory_pushed now tz random Hrandom) as (pushed & Hrev & Hok).
  fold summaries in Hrev.
  assert (Hdates : map DailySummary.date summaries
                   = map (fun daysAgo => (now / day - daysAgo) * day) (down_from 29 30)).
  { rewrite Hrev, map_rev.
    change (down_from 29 30) with (down_from (0 + Z.of_nat 30 - 1) 30).
    rewrite <- rev_up_from, map_rev. f_equal.
    apply Forall2_map_eq.
    apply (Forall2_impl _ _ _ _ Hok). intros daysAgo s Hs. apply Hs. }
  split; [|split; [|split; [exact Hdates|]]].
  - rewrite Hrev, length_rev. apply Forall2_length in Hok. rewrite <- Hok.
    apply up_from_length.
  - rewrite Hrev. apply Forall_rev.
    apply (Forall2_Forall_right _ (up_from 0 30)).
    apply (Forall2_impl _ _ _ _ Hok). intros daysAgo s Hs. apply Hs.
  - rewrite Hdates. apply down_from_increasing. intros a b Hab. unfold day. lia.
Qed.

Lemma generateDailyHistory_consistent_witness :
  let summaries := run (generateDailyHistory noon UTC half) in
  length summaries = 30%nat
  /\ Forall (fun s =>
       0 <= DailySummary.shotCount s
       /\ (DailySummary.shotCount s = 0 ->
           DailySummary.totalBrewTimeMs s = 0 /\ DailySummary.avgBrewTimeMs s = 0)
       /\ (0 < DailySummary.shotCount s ->
           DailySummary.totalBrewTimeMs s
           = DailySummary.shotCount s * DailySummary.avgBrewTimeMs s))
       summaries
  /\ map DailySummary.date summaries
     = map (fun daysAgo => (noon / day - daysAgo) * day) (down_from 29 30)
  /\ StronglySorted Z.lt (map DailySummary.date summaries).
Proof. exact (generateDailyHistory_consistent noon UTC half half_range). Defined.







(** C10, as stated, fails: the legacy [minBrewTimeMs] is 22000 where the
    lifetime statistics have 18000, and the legacy [maxBrewTimeMs] is
    35000 where they have 42000. *)
Lemma legacy_brew_time_extrema_differ :
  let s := run (generateDemoStats noon) in
  Statistics.minBrewTimeMs s = 22000
  /\ LifetimeStats.minBrewTimeMs (Statistics.lifetime s) = 18000
  /\ Statistics.minBrewTimeMs s <> LifetimeStats.minBrewTimeMs (Statistics.lifetime s)
  /\ Statistics.maxBrewTimeMs s <> LifetimeStats.maxBrewTimeMs (Statistics.lifetime s).
Proof. cbn. repeat split; discriminate. Qed.

(** C10, amended.  [generateDemoStats] draws no value of [Math.random()]
    and its result depends on the module constant [now] alone, so two
    calls in one process return the same statistics.  Every legacy field
    equals its structured counterpart, except [minBrewTimeMs] and
    [maxBrewTimeMs], which are the extrema of the week and not those of
    the lifetime statistics. *)
Theorem generateDemoStats_deterministic (now : Z) (k1 k2 : nat) :
  snd (generateDemoStats now k1) = k1
  /\ fst (generateDemoStats now k1) = fst (generateDemoStats now k2)
  /\ let s := fst (generateDemoStats now k1) in
     let lifetime := Statistics.lifetime s in
     let maintenance := Statistics.maintenance s in
     Statistics.totalShots s = LifetimeStats.totalShots lifetime
     /\ Statistics.totalSteamCycles s = LifetimeStats.totalSteamCycles lifetime
     /\ Statistics.totalKwh s = LifetimeStats.totalKwh lifetime
     /\ Statistics.totalOnTimeMinutes s = LifetimeStats.totalOnTimeMinutes lifetime
     /\ Statistics.avgBrewTimeMs s = LifetimeStats.avgBrewTimeMs lifetime
     /\ Statistics.shotsToday s = PeriodStats.shotCount (Statistics.daily s)
     /\ Statistics.kwhToday s = PeriodStats.totalKwh (Statistics.daily s)
     /\ Statistics.dailyCount s = PeriodStats.shotCount (Statistics.daily s)
     /\ Statistics.weeklyCount s = PeriodStats.shotCount (Statistics.weekly s)
     /\ Statistics.monthlyCount s = PeriodStats.shotCount (Statistics.monthly s)
     /\ Statistics.shotsSinceDescale s = MaintenanceStats.shotsSinceDescale maintenance
     /\ Statistics.shotsSinceGroupClean s = MaintenanceStats.shotsSinceGroupClean maintenance
     /\ Statistics.shotsSinceBackflush s = MaintenanceStats.shotsSinceBackflush maintenance
     /\ Statistics.lastDescaleTimestamp s = MaintenanceStats.lastDescaleTimestamp maintenance
     /\ Statistics.lastGroupCleanTimestamp s
        = MaintenanceStats.lastGroupCleanTimestamp maintenance
     /\ Statistics.lastBackflushTimestamp s
        = MaintenanceStats.lastBackflushTimestamp maintenance
     /\ Statistics.minBrewTimeMs s = PeriodStats.minBrewTimeMs (Statistics.weekly s)
     /\ Statistics.maxBrewTimeMs s = PeriodStats.maxBrewTimeMs (Statistics.weekly s).
Proof. cbn. repeat split; reflexivity. Qed.

End DemoStatsSpec.

(** * Further properties of the demo mode *)

Module DemoModeMore.
Import DemoMode DemoModeSpec.
Local Open Scope js_scope.

(** The hosts according to what they have. *)
Lemma host_cases (h : Host) :
  (exists loc st, h = browser loc st)
  \/ (exists st, h = {| window := None; localStorage := Some st |})
  \/ (exists w, h = {| window := w; localStorage := None |}).
Proof.
  destruct h as [[loc|] [st|]]; eauto.
Qed.

(** What [initDemoModeFromUrl] does in a browser. *)
Lemma initDemoModeFromUrl_exit (loc : Location) (st : gmap string string) :
  is_true "exitDemo" (search loc) = true ->
  initDemoModeFromUrl (browser loc st)
  = Return tt
      (browser {| pathname := pathname loc;
                  search := delete_param "exitDemo" (search loc);
                  hash := "" |}
               (delete DEMO_MODE_KEY st)).
Proof. intros He. unfold initDemoModeFromUrl. simpl. now rewrite He. Qed.

Lemma initDemoModeFromUrl_enter (loc : Location) (st : gmap string string) :
  is_true "exitDemo" (search loc) = false ->
  is_true "demo" (search loc) = true ->
  initDemoModeFromUrl (browser loc st)
  = Return tt (browser loc (<[DEMO_MODE_KEY := "true"%string]> st)).
Proof. intros He Hd. unfold initDemoModeFromUrl. simpl. now rewrite He, Hd. Qed.

Lemma initDemoModeFromUrl_plain (loc : Location) (st : gmap string string) :
  is_true "exitDemo" (search loc) = false ->
  is_true "demo" (search loc) = false ->
  initDemoModeFromUrl (browser loc st) = Return tt (browser loc st).
Proof. intros He Hd. unfold initDemoModeFromUrl. simpl. now rewrite He, Hd. Qed.

Lemma initDemoModeFromUrl_no_localStorage (loc : Location) :
  initDemoModeFromUrl {| window := Some loc; localStorage := None |}
  = if is_true "exitDemo" (search loc) || is_true "demo" (search loc)
    then Throw (ReferenceError "localStorage")
               {| window := Some loc; localStorage := None |}
    else Return tt {| window := Some loc; localStorage := None |}.
Proof.
  unfold initDemoModeFromUrl. simpl.
  destruct (is_true "exitDemo" (search loc)); [reflexivity|].
  destruct (is_true "demo" (search loc)); reflexivity.
Qed.

(** X1. On every host, with or without [window] and [localStorage],
    [initDemoModeFromUrl] leaves the storage and the location exactly as a
    call of [isDemoMode] leaves them. *)
Theorem initDemoModeFromUrl_as_isDemoMode (h : Host) :
  host_after (initDemoModeFromUrl h) = host_after (isDemoMode h).
Proof.
  destruct (host_cases h) as [(loc & st & ->) | [(st & ->) | (w & ->)]].
  - destruct (is_true "exitDemo" (search loc)) eqn:He.
    + now rewrite initDemoModeFromUrl_exit, isDemoMode_exit.
    + destruct (is_true "demo" (search loc)) eqn:Hd.
      * now rewrite initDemoModeFromUrl_enter, isDemoMode_enter.
      * now rewrite initDemoModeFromUrl_plain, isDemoMode_stored.
  - reflexivity.
  - rewrite isDemoMode_no_localStorage. destruct w as [loc|]; [|reflexivity].
    rewrite initDemoModeFromUrl_no_localStorage.
    now destruct (_ || _).
Qed.

(** X2. On a host with [localStorage], [isDemoMode] does not throw, and
    the value it returns is the flag as it is stored once the call is
    over. *)
Theorem isDemoMode_returns_stored_flag (h : Host) (st : gmap string string) :
  localStorage h = Some st ->
  exists h', isDemoMode h = Return (flag (stored h')) h'.
Proof.
  intros Hst.
  destruct (host_cases h) as [(loc & st' & ->) | [(st' & ->) | (w & ->)]];
    [| rewrite isDemoMode_no_window;
       exists {| window := None; localStorage := Some st' |}; reflexivity
     | discriminate Hst].
  destruct (is_true "exitDemo" (search loc)) eqn:He.
  - rewrite isDemoMode_exit by exact He. eexists. f_equal.
    unfold stored. simpl. now rewrite flag_delete.
  - destruct (is_true "demo" (search loc)) eqn:Hd.
    + rewrite isDemoMode_enter by assumption. eexists. f_equal.
      unfold stored. simpl. now rewrite flag_insert.
    + rewrite isDemoMode_stored by assumption. now exists (browser loc st').
Qed.

Lemma isDemoMode_returns_stored_flag_witness :
  exists h', isDemoMode (browser demo_link ∅) = Return (flag (stored h')) h'.
Proof. exact (isDemoMode_returns_stored_flag (browser demo_link ∅) ∅ eq_refl). Defined.

(** X3. [isDemoMode] throws exactly on the hosts without [localStorage];
    [initDemoModeFromUrl] throws exactly on the hosts that have [window]
    with [exitDemo=true] or [demo=true] in the query and lack
    [localStorage]. *)
Theorem throws_iff_no_localStorage (h : Host) :
  (throws (isDemoMode h) <-> localStorage h = None)
  /\ (throws (initDemoModeFromUrl h)
      <-> localStorage h = None
          /\ exists loc, window h = Some loc
                         /\ (get "exitDemo" (search loc) = Some "true"%string
                             \/ get "demo" (search loc) = Some "true"%string)).
Proof.
  destruct (host_cases h) as [(loc & st & ->) | [(st & ->) | (w & ->)]].
  - assert (Hi : ~ throws (isDemoMode (browser loc st))).
    { destruct (is_true "exitDemo" (search loc)) eqn:He.
      - rewrite isDemoMode_exit by exact He. intros [].
      - destruct (is_true "demo" (search loc)) eqn:Hd.
        + rewrite isDemoMode_enter by assumption. intros [].
        + rewrite isDemoMode_stored by assumption. intros []. }
    assert (Hinit : ~ throws (initDemoModeFromUrl (browser loc st))).
    { destruct (is_true "exitDemo" (search loc)) eqn:He.
      - rewrite initDemoModeFromUrl_exit by exact He. intros [].
      - destruct (is_true "demo" (search loc)) eqn:Hd.
        + rewrite initDemoModeFromUrl_enter by assumption. intros [].
        + rewrite initDemoModeFromUrl_plain by assumption. intros []. }
    split; (split; [tauto|]); [discriminate | intros [H _]; discriminate H].
  - split; (split; [intros []|]); [discriminate | intros [H _]; discriminate H].
  - rewrite isDemoMode_no_localStorage.
    split; [split; [reflexivity | intros _; exact I]|].
    destruct w as [loc|].
    + rewrite initDemoModeFromUrl_no_localStorage.
      destruct (is_true "exitDemo" (search loc)) eqn:He; simpl.
      * split; [|intros _; exact I]. intros _. split; [reflexivity|].
        exists loc. split; [reflexivity|]. left. now apply is_true_spec.
      * destruct (is_true "demo" (search loc)) eqn:Hd; simpl.
        -- split; [|intros _; exact I]. intros _. split; [reflexivity|].
           exists loc. split; [reflexivity|]. right. now apply is_true_spec.
        -- split; [intros []|]. intros (_ & loc' & Hloc & Hparam).
           injection Hloc as <-.
           destruct Hparam as [H|H]; apply is_true_spec in H; congruence.
    + split; [intros []|]. intros (_ & loc' & Hloc & _). discriminate Hloc.
Qed.

(** X4. No operation of the module touches another key of
    [localStorage]: after [isDemoMode], [initDemoModeFromUrl],
    [enableDemoMode] or [disableDemoMode], on any host, every key other
    than the demo key holds what it held. *)
Theorem other_keys_untouched (h : Host) (key : string) :
  key <> DEMO_MODE_KEY ->
  stored (host_after (isDemoMode h)) !! key = stored h !! key
  /\ stored (host_after (initDemoModeFromUrl h)) !! key = stored h !! key
  /\ stored (host_after (enableDemoMode h)) !! key = stored h !! key
  /\ stored (host_after (disableDemoMode h)) !! key = stored h !! key.
Proof.
  intros Hkey.
  assert (Hins : forall st : gmap string string,
             <[DEMO_MODE_KEY := "true"%string]> st !! key = st !! key)
    by (intros st; now apply lookup_insert_ne).
  assert (Hdel : forall st : gmap string string,
             delete DEMO_MODE_KEY st !! key = st !! key)
    by (intros st; now apply lookup_delete_ne).
  destruct (host_cases h) as [(loc & st & ->) | [(st & ->) | (w & ->)]].
  - split; [|split; [|split]]; [| | apply Hins | apply Hdel].
    + destruct (is_true "exitDemo" (search loc)) eqn:He.
      * rewrite isDemoMode_exit by exact He. apply Hdel.
      * destruct (is_true "demo" (search loc)) eqn:Hd.
        -- rewrite isDemoMode_enter by assumption. apply Hins.
        -- now rewrite isDemoMode_stored.
    + destruct (is_true "exitDemo" (search loc)) eqn:He.
      * rewrite initDemoModeFromUrl_exit by exact He. apply Hdel.
      * destruct (is_true "demo" (search loc)) eqn:Hd.
        -- rewrite initDemoModeFromUrl_enter by assumption. apply Hins.
        -- now rewrite initDemoModeFromUrl_plain.
  - split; [reflexivity|]. split; [reflexivity|]. split; [apply Hins | apply Hdel].
  - rewrite isDemoMode_no_localStorage.
    split; [reflexivity|]. split; [|split; reflexivity].
    destruct w as [loc|]; [|reflexivity].
    rewrite initDemoModeFromUrl_no_localStorage. now destruct (_ || _).
Qed.

Lemma other_keys_untouched_witness :
  stored (host_after (isDemoMode (browser both_link demo_storage)))
    !! "brewos-install-dismissed"%string
  = demo_storage !! "brewos-install-dismissed"%string.
Proof.
  apply (other_keys_untouched (browser both_link demo_storage)
           "brewos-install-dismissed"%string).
  discriminate.
Defined.

Lemma delete_param_sublist (name : string) (params : URLSearchParams) :
  sublist (delete_param name params) params.
Proof.
  induction params as [|[k v] rest IH]; simpl; [constructor|].
  destruct (decide (k = name)); now constructor.
Qed.

(** X5. In a browser [isDemoMode] leaves a location with the same path;
    its query is the old one with some pairs dropped, in the same order,
    and every parameter other than [exitDemo] reads as before;
    [exitDemo=true] is never left in it; and when the query did not have
    [exitDemo=true] the location, fragment included, is not touched. *)
Theorem isDemoMode_location (loc : Location) (st : gmap string string) :
  exists loc',
    window (host_after (isDemoMode (browser loc st))) = Some loc'
    /\ pathname loc' = pathname loc
    /\ sublist (search loc') (search loc)
    /\ (forall name : string,
          name <> "exitDemo"%string ->
          get name (search loc') = get name (search loc))
    /\ get "exitDemo" (search loc') <> Some "true"%string
    /\ (get "exitDemo" (search loc) <> Some "true"%string -> loc' = loc).
Proof.
  destruct (is_true "exitDemo" (search loc)) eqn:He.
  - rewrite isDemoMode_exit by exact He.
    eexists. split; [reflexivity|]. simpl.
    split; [reflexivity|]. split; [apply delete_param_sublist|].
    split; [intros name Hname; now apply get_delete_param_ne|].
    split; [now rewrite get_delete_param_eq|].
    intros Hno. apply is_true_spec in He. contradiction.
  - assert (Hno : get "exitDemo" (search loc) <> Some "true"%string).
    { intros H. apply is_true_spec in H. congruence. }
    exists loc.
    split.
    + destruct (is_true "demo" (search loc)) eqn:Hd.
      * now rewrite isDemoMode_enter.
      * now rewrite isDemoMode_stored.
    + repeat split; auto.
Qed.

(** X6. The choice made through a link outlives the link.  After a call
    of [isDemoMode] on a query with [demo=true] and no [exitDemo=true],
    a call on any later location without the two parameters, with the
    storage the first call left, returns [true]; after a call on a query
    with [exitDemo=true] it returns [false]. *)
Theorem choice_persists (loc later : Location) (st : gmap string string) :
  get "exitDemo" (search later) <> Some "true"%string ->
  get "demo" (search later) <> Some "true"%string ->
  let st' := stored (host_after (isDemoMode (browser loc st))) in
  (get "exitDemo" (search loc) = Some "true"%string ->
   isDemoMode (browser later st') = Return false (browser later st'))
  /\ (get "exitDemo" (search loc) <> Some "true"%string ->
      get "demo" (search loc) = Some "true"%string ->
      isDemoMode (browser later st') = Return true (browser later st')).
Proof.
  intros He' Hd' st'.
  assert (Hlater : forall s, isDemoMode (browser later s) = Return (flag s) (browser later s)).
  { intros s. apply isDemoMode_stored.
    - destruct (is_true "exitDemo" (search later)) eqn:E; [|reflexivity].
      now apply is_true_spec in E.
    - destruct (is_true "demo" (search later)) eqn:E; [|reflexivity].
      now apply is_true_spec in E. }
  rewrite Hlater. subst st'. split.
  - intros He. apply is_true_spec in He.
    rewrite isDemoMode_exit by exact He. unfold stored. simpl.
    now rewrite flag_delete.
  - intros He Hd. apply is_true_spec in Hd.
    rewrite isDemoMode_enter; [|destruct (is_true "exitDemo" (search loc)) eqn:E;
                                 [now apply is_true_spec in E | reflexivity] | exact Hd].
    unfold stored. simpl. now rewrite flag_insert.
Qed.

Lemma choice_persists_witness :
  let st' := stored (host_after (isDemoMode (browser demo_link ∅))) in
  isDemoMode (browser plain_page st') = Return true (browser plain_page st').
Proof.
  apply (choice_persists demo_link plain_page ∅); discriminate || reflexivity.
Defined.

(** X7. In a browser [disableDemoMode] undoes [enableDemoMode] and the
    other way round: the later of the two decides, whatever the storage
    held, and [isDemoMode] on a page without the parameters then answers
    accordingly. *)
Theorem enable_disable_compose (loc : Location) (st : gmap string string) :
  (enableDemoMode ;;; disableDemoMode) (browser loc st)
  = disableDemoMode (browser loc st)
  /\ (disableDemoMode ;;; enableDemoMode) (browser loc st)
     = enableDemoMode (browser loc st)
  /\ (get "exitDemo" (search loc) <> Some "true"%string ->
      get "demo" (search loc) <> Some "true"%string ->
      (exists h, (enableDemoMode ;;; isDemoMode) (browser loc st) = Return true h)
      /\ (exists h, (disableDemoMode ;;; isDemoMode) (browser loc st) = Return false h)).
Proof.
  split; [|split].
  - unfold bind, enableDemoMode, disableDemoMode, localStorage_setItem,
      localStorage_removeItem, bind, storage, put_storage, browser. simpl.
    now rewrite delete_insert_eq.
  - unfold bind, enableDemoMode, disableDemoMode, localStorage_setItem,
      localStorage_removeItem, bind, storage, put_storage, browser. simpl.
    now rewrite insert_delete_eq.
  - intros He Hd.
    assert (Hpage : forall s, isDemoMode (browser loc s) = Return (flag s) (browser loc s)).
    { intros s. apply isDemoMode_stored.
      - destruct (is_true "exitDemo" (search loc)) eqn:E; [|reflexivity].
        now apply is_true_spec in E.
      - destruct (is_true "demo" (search loc)) eqn:E; [|reflexivity].
        now apply is_true_spec in E. }
    split; eexists.
    + change ((enableDemoMode ;;; isDemoMode) (browser loc st))
        with (isDemoMode (browser loc (<[DEMO_MODE_KEY := "true"%string]> st))).
      rewrite Hpage, flag_insert. reflexivity.
    + change ((disableDemoMode ;;; isDemoMode) (browser loc st))
        with (isDemoMode (browser loc (delete DEMO_MODE_KEY st))).
      rewrite Hpage, flag_delete. reflexivity.
Qed.

Lemma enable_disable_compose_witness :
  (exists h, (enableDemoMode ;;; isDemoMode) (browser plain_page ∅) = Return true h)
  /\ (exists h, (disableDemoMode ;;; isDemoMode) (browser plain_page demo_storage)
                = Return false h).
Proof.
  split.
  - destruct (enable_disable_compose plain_page ∅) as (_ & _ & H).
    exact (proj1 (H ltac:(discriminate) ltac:(discriminate))).
  - destruct (enable_disable_compose plain_page demo_storage) as (_ & _ & H).
    exact (proj2 (H ltac:(discriminate) ltac:(discriminate))).
Defined.

(** X8. The day masks of the demo schedules say what their comments
    say, for every day number: Morning Coffee applies on the days 1 to 5
    (Monday to Friday) and on no other, Weekend Brunch on the days 0 and 6
    (Sunday and Saturday) and on no other, Evening Off on the days 0 to 6.
    So exactly one of the two schedules that are enabled applies on each
    day of the week. *)
Theorem demo_schedules_days :
  exists morning brunch evening,
    schedules getDemoSchedules = [morning; brunch; evening]
    /\ forall d : Z,
         on_day morning d = (1 <=? d) && (d <=? 5)
         /\ on_day brunch d = (d =? 0) || (d =? 6)
         /\ on_day evening d = (0 <=? d) && (d <=? 6)
         /\ (0 <= d <= 6 -> on_day morning d = negb (on_day brunch d)).
Proof.
  eexists _, _, _. split; [reflexivity|]. intros d. unfold on_day. simpl.
  destruct (Z_lt_le_dec d 0) as [Hneg|Hpos].
  - rewrite !Z.testbit_neg_r by exact Hneg.
    repeat split; try lia.
  - destruct (Z_lt_le_dec 6 d) as [Hhigh|Hlow].
    + rewrite !Z.bits_above_log2 by (simpl; lia).
      repeat split; try lia.
    + assert (Hd : d = 0 \/ d = 1 \/ d = 2 \/ d = 3 \/ d = 4 \/ d = 5 \/ d = 6) by lia.
      repeat destruct Hd as [-> | Hd]; try subst d; repeat split; reflexivity.
Qed.

End DemoModeMore.

(** * Properties of the demo banner *)

Module DemoBannerSpec.
Import DemoMode DemoModeSpec DemoBanner.
Local Open Scope js_scope.

(** X9. Without an [onExit] callback, the Exit Demo button loads the
    same path without query and leaves [localStorage] as it is: the next
    [isDemoMode] returns the stored flag.  So a demo entered through
    [demo=true], which stored the flag, is still on after the button. *)
Theorem handleExit_keeps_flag (loc : Location) (st : gmap string string) :
  exists h',
    handleExit None (browser loc st) = Return tt h'
    /\ h' = browser {| pathname := pathname loc; search := []; hash := "" |} st
    /\ isDemoMode h' = Return (flag st) h'
    /\ (get "exitDemo" (search loc) <> Some "true"%string ->
        get "demo" (search loc) = Some "true"%string ->
        exists h'',
          (isDemoMode ;;; handleExit None ;;; isDemoMode) (browser loc st)
          = Return true h'').
Proof.
  eexists. split; [reflexivity|]. split; [reflexivity|]. split.
  - now apply isDemoMode_stored.
  - intros He Hd. apply is_true_spec in Hd.
    assert (He' : is_true "exitDemo" (search loc) = false).
    { destruct (is_true "exitDemo" (search loc)) eqn:E; [|reflexivity].
      now apply is_true_spec in E. }
    eexists. unfold bind at 1. rewrite (isDemoMode_enter _ _ He' Hd).
    unfold bind, handleExit, navigate_to_pathname, browser. simpl.
    change (isDemoMode
              {| window := Some {| pathname := pathname loc; search := []; hash := "" |};
                 localStorage := Some (<[DEMO_MODE_KEY := "true"%string]> st) |})
      with (isDemoMode (browser {| pathname := pathname loc; search := []; hash := "" |}
                                (<[DEMO_MODE_KEY := "true"%string]> st))).
    rewrite isDemoMode_stored by reflexivity.
    now rewrite flag_insert.
Qed.

Lemma handleExit_keeps_flag_witness :
  exists h'',
    (isDemoMode ;;; handleExit None ;;; isDemoMode) (browser demo_link ∅)
    = Return true h''.
Proof.
  destruct (handleExit_keeps_flag demo_link ∅) as (h' & _ & _ & _ & H).
  apply H; [discriminate | reflexivity].
Defined.

End DemoBannerSpec.

(** * Properties of the layout *)

Module LayoutSpec.
Import DemoStats DemoStatsSpec Layout.

Lemma Qleb_true (x y : Q) : (x <=? y)%Q = true -> (x <= y)%Q.
Proof. unfold Qleb, Qltb. now destruct (Qlt_le_dec y x). Qed.

Lemma Qleb_false (x y : Q) : (x <=? y)%Q = false -> (y < x)%Q.
Proof. unfold Qleb, Qltb. now destruct (Qlt_le_dec y x). Qed.

Lemma Qgtb_true (x y : Q) : (x >? y)%Q = true -> (y < x)%Q.
Proof. unfold Qgtb. apply Qltb_true. Qed.

Lemma Qgtb_false (x y : Q) : (x >? y)%Q = false -> (x <= y)%Q.
Proof. unfold Qgtb. apply Qltb_false. Qed.

Lemma Math_abs_small (x : Q) :
  (Math_abs x >? scrollThreshold)%Q = false -> (-10 <= x <= 10)%Q.
Proof.
  intros H. apply Qgtb_false in H. unfold Math_abs, scrollThreshold in H.
  apply Qabs_Qle_condition in H. exact H.
Qed.

Lemma Math_abs_large (x : Q) :
  (Math_abs x >? scrollThreshold)%Q = true -> (x < -10 \/ 10 < x)%Q.
Proof.
  intros H. apply Qgtb_true in H. unfold Math_abs, scrollThreshold in H.
  destruct (Qlt_le_dec x (-10)) as [Hl|Hl]; [now left|].
  destruct (Qlt_le_dec 10 x) as [Hr|Hr]; [now right|].
  exfalso. assert (Hle : (Qabs x <= 10)%Q) by (apply Qabs_Qle_condition; split; lra).
  lra.
Qed.

Lemma handleScroll_hidden (y : Q) (s : State) :
  hidden_is_justified s ->
  hidden_is_justified (handleScroll y s)
  /\ (headerVisible (handleScroll y s) = false -> (70 < y)%Q).
Proof.
  intros Hs. unfold hidden_is_justified, handleScroll in *.
  destruct (y <=? 0)%Q eqn:Htop; [simpl; split; discriminate|].
  apply Qleb_false in Htop.
  assert (Hpos : (y >? 0)%Q = true).
  { unfold Qgtb, Qltb. destruct (Qlt_le_dec 0 y); [reflexivity | lra]. }
  rewrite Hpos, andb_true_r.
  assert (Hscrolled : (if negb (hasScrolled s) then true else hasScrolled s) = true)
    by now destruct (hasScrolled s).
  rewrite Hscrolled, andb_true_r.
  destruct (Math_abs (y - lastScrollY s) >? scrollThreshold)%Q eqn:Hbig; simpl.
  - apply Math_abs_large in Hbig.
    destruct (y - lastScrollY s >? 0)%Q eqn:Hdown; simpl.
    + apply Qgtb_true in Hdown.
      destruct (y >? 80)%Q eqn:Hpast; simpl.
      * apply Qgtb_true in Hpast. split; [intros _; split; [reflexivity | exact Hpast]|].
        intros _. lra.
      * destruct (y - lastScrollY s <? 0)%Q eqn:Hup; simpl; [split; discriminate|].
        apply Qgtb_false in Hpast.
        split; intros Hhid; destruct (Hs Hhid) as [_ Hlast]; lra.
    + apply Qgtb_false in Hdown.
      assert (Hup : (y - lastScrollY s <? 0)%Q = true).
      { unfold Qltb. destruct (Qlt_le_dec (y - lastScrollY s) 0); [reflexivity | lra]. }
      rewrite Hup. split; discriminate.
  - apply Math_abs_small in Hbig.
    split; intros Hhid; destruct (Hs Hhid) as [_ Hlast]; [split; [reflexivity | exact Hlast] | lra].
Qed.

Lemma step_hidden (s : State) (e : Event) :
  hidden_is_justified s -> hidden_is_justified (step s e).
Proof.
  intros Hs. destruct e as [top| |y]; simpl.
  - intros H. discriminate H.
  - intros H. discriminate H.
  - now apply handleScroll_hidden.
Qed.

Lemma after_hidden (events : list Event) : hidden_is_justified (after events).
Proof.
  unfold after.
  assert (H : forall s, hidden_is_justified s ->
                        hidden_is_justified (fold_left step events s)).
  { induction events as [|e events IH]; intros s Hs; simpl; [exact Hs|].
    apply IH. now apply step_hidden. }
  apply H. intros Hhid. discriminate Hhid.
Qed.

(** X10. Whatever the mounts, route changes and scroll events so far, if
    the header is hidden after a scroll event then the position of that
    event is more than 70 pixels down; in particular the header is shown
    whenever the page is at its top.  And while the header is hidden the
    position last recorded is more than 80 pixels down. *)
Theorem header_hidden_only_when_scrolled_down (events : list Event) (y : Q) :
  let s := after (events ++ [Scroll y]) in
  ((y <= 0)%Q -> s = {| headerVisible := true; lastScrollY := 0; hasScrolled := false |})
  /\ (headerVisible s = false ->
      (70 < y)%Q /\ (80 < lastScrollY s)%Q /\ hasScrolled s = true).
Proof.
  intros s. subst s. unfold after. rewrite fold_left_app. simpl.
  fold (after events). split.
  - intros Hy. unfold handleScroll.
    assert (Htop : (y <=? 0)%Q = true).
    { unfold Qleb, Qltb. destruct (Qlt_le_dec 0 y); [lra | reflexivity]. }
    now rewrite Htop.
  - intros Hhid.
    destruct (handleScroll_hidden y (after events) (after_hidden events)) as [Hinv Hy].
    destruct (Hinv Hhid) as [Hsc Hlast]. auto.
Qed.

Lemma header_hidden_only_when_scrolled_down_witness :
  let s := after ([Mount 0; Scroll 40; Scroll 120] ++ [Scroll 0]) in
  s = {| headerVisible := true; lastScrollY := 0; hasScrolled := false |}.
Proof.
  apply (header_hidden_only_when_scrolled_down [Mount 0; Scroll 40; Scroll 120] 0).
  discriminate.
Defined.

Lemma length_append (s t : string) :
  String.length (s +:+ t) = (String.length s + String.length t)%nat.
Proof. induction s as [|c s IH]; simpl; [reflexivity | now rewrite IH]. Qed.

Lemma append_longer (s t : string) : t <> ""%string -> s <> (s +:+ t)%string.
Proof.
  intros Ht Heq. apply (f_equal String.length) in Heq.
  rewrite length_append in Heq. destruct t; [contradiction | simpl in Heq; lia].
Qed.

Lemma append_empty (s : string) : (s +:+ "")%string = s.
Proof.
  induction s as [|c s IH]; [reflexivity|].
  change (String c (s +:+ "") = String c s). now f_equal.
Qed.

(** X11. [getNavigation] returns the five items Dashboard, Brewing,
    Stats, Schedules and Settings, in this order, and their targets are
    all different.  In the cloud with a device the targets are the paths
    of the machine: each one starts with [/machine/] and the device.
    Otherwise they are [/], [/brewing], [/stats], [/schedules] and
    [/settings]. *)
Theorem getNavigation_targets (isCloud : bool) (deviceId : option string) :
  let items := getNavigation isCloud deviceId in
  map name items = ["Dashboard"; "Brewing"; "Stats"; "Schedules"; "Settings"]%string
  /\ NoDup (map href items)
  /\ (forall device : string,
        isCloud = true -> deviceId = Some device -> device <> ""%string ->
        Forall (fun item => exists rest,
                  href item = (("/machine/" +:+ device) +:+ rest)%string) items)
  /\ (isCloud = false \/ deviceId = None \/ deviceId = Some ""%string ->
      map href items
      = ["/"; "/brewing"; "/stats"; "/schedules"; "/settings"]%string).
Proof.
  intros items. subst items. unfold getNavigation.
  set (basePath := match deviceId with Some _ => _ | None => _ end).
  cbn [map name href].
  split; [reflexivity|]. split; [|split].
  - assert (Hroot : forall t : string,
               t <> ""%string -> "/"%string <> t ->
               or_root basePath <> (basePath +:+ t)%string).
    { intros t Ht Hslash. unfold or_root.
      destruct (decide (basePath = ""%string)) as [->|Hne];
        [exact Hslash | now apply append_longer]. }
    assert (Hsuffix : forall t u : string,
               t <> u -> (basePath +:+ t)%string <> (basePath +:+ u)%string).
    { intros t u Hne Heq. apply Hne. now apply (inj (String.app basePath)) in Heq. }
    repeat (apply NoDup_cons_2;
            [rewrite ?elem_of_cons, elem_of_nil; intros Hin;
             repeat match goal with
                    | H : _ \/ _ |- _ => destruct H as [H|H]
                    | H : False |- _ => destruct H
                    end;
             solve [ revert Hin; apply Hroot; discriminate
                   | symmetry in Hin; revert Hin; apply Hroot; discriminate
                   | revert Hin; apply Hsuffix; discriminate ] |]).
    apply NoDup_nil_2.
  - intros device -> -> Hdevice. subst basePath. cbn [andb].
    rewrite bool_decide_eq_false_2 by exact Hdevice. cbn [negb].
    unfold or_root. destruct (decide _) as [Hempty|_]; [discriminate Hempty|].
    repeat constructor; cbn [href].
    + exists ""%string. now rewrite append_empty.
    + now exists "/brewing"%string.
    + now exists "/stats"%string.
    + now exists "/schedules"%string.
    + now exists "/settings"%string.
  - intros Hlocal.
    assert (Hbase : basePath = ""%string).
    { subst basePath. destruct Hlocal as [-> | [-> | ->]]; [|reflexivity|].
      - now destruct deviceId.
      - now destruct isCloud. }
    rewrite Hbase. reflexivity.
Qed.

Lemma getNavigation_targets_witness :
  Forall (fun item => exists rest,
            href item = (("/machine/" +:+ "brewos-1") +:+ rest)%string)
         (getNavigation true (Some "brewos-1"%string)).
Proof.
  destruct (getNavigation_targets true (Some "brewos-1"%string)) as (_ & _ & H & _).
  apply (H "brewos-1"%string); [reflexivity | reflexivity | discriminate].
Defined.

End LayoutSpec.

(** * Further properties of the demo statistics *)

Module DemoStatsMore.
Import DemoStats DemoStatsSpec.
Local Open Scope gen_scope.

(** *** Mapping with a generator *)

Lemma Array_map_pushed {A B} (f : A -> Z -> Gen B) (array : list A) :
  forall (index : Z) (k : nat),
    Forall2 (fun xi y => exists k', y = fst (f (fst xi) (snd xi) k'))
            (combine array (up_from index (length array)))
            (fst (Array_map f index array k)).
Proof.
  induction array as [|x rest IH]; intros index k; [constructor|].
  cbn [Array_map]. unfold bind at 1.
  destruct (f x index k) as [y k1] eqn:Hy.
  unfold bind at 1. specialize (IH (index + 1) k1).
  destruct (Array_map f (index + 1) rest k1) as [ys k2]. cbn [ret fst] in *.
  constructor; [|exact IH].
  exists k. cbn [fst snd]. now rewrite Hy.
Qed.

Lemma Forall2_combine_l {A I B} (R : A * I -> B -> Prop) (xs : list A) (idx : list I) (ys : list B) :
  Forall2 R (combine xs idx) ys -> length xs = length idx ->
  Forall2 (fun x y => exists i, R (x, i) y) xs ys.
Proof.
  revert idx ys. induction xs as [|x xs IH]; intros [|i idx] ys H Hlen;
    try discriminate Hlen; simpl in H.
  - inversion H. constructor.
  - inversion H as [|? y ? ys' Hxy Hrest]; subst. constructor; [now exists i|].
    apply (IH idx); [exact Hrest | now injection Hlen].
Qed.

Lemma Forall2_combine_r {A I B} (R : A * I -> B -> Prop) (xs : list A) (idx : list I) (ys : list B) :
  Forall2 R (combine xs idx) ys -> length xs = length idx ->
  Forall2 (fun i y => exists x, R (x, i) y) idx ys.
Proof.
  revert idx ys. induction xs as [|x xs IH]; intros [|i idx] ys H Hlen;
    try discriminate Hlen; simpl in H.
  - inversion H. constructor.
  - inversion H as [|? y ? ys' Hxy Hrest]; subst. constructor; [now exists x|].
    apply (IH idx); [exact Hrest | now injection Hlen].
Qed.

Lemma Forall2_origin {A B} (f : A -> Gen B) (P : A -> B -> Prop) (xs : list A) (ys : list B) :
  Forall2 (fun x y => exists k', y = fst (f x k')) xs ys ->
  (forall x k', In x xs -> P x (fst (f x k'))) ->
  Forall2 P xs ys.
Proof.
  induction 1 as [|x y xs ys [k' ->] _ IH]; intros HP; constructor.
  - apply HP. now left.
  - apply IH. intros x' k'' Hin. apply HP. now right.
Qed.

Lemma Forall2_impl_In {A B} (R R' : A -> B -> Prop) (xs : list A) (ys : list B) :
  Forall2 R xs ys ->
  (forall x y, In x xs -> R x y -> R' x y) ->
  Forall2 R' xs ys.
Proof.
  induction 1 as [|x y xs ys Hxy _ IH]; intros Himpl; constructor.
  - apply Himpl; [now left | exact Hxy].
  - apply IH. intros x' y' Hin. apply Himpl. now right.
Qed.

(** *** Weekly chart and hourly distribution *)

Section Charts.
Variable tz : Locale.
Variable random : nat -> Q.
Variable clock : Z.
Hypothesis random_range : unit_interval random.

(** The day of the week ([getDay]) of each name, in the order of
    [weekDays]: Monday is 1, ..., Saturday 6, Sunday 0. *)
Lemma weeklyShots_ok (today : Z) (day : string) (index : Z) (k : nat) :
  let e := fst (weeklyShots random today day index k) in
  let dayIndex := (index + 1) mod 7 in
  WeeklyShots.day e = day
  /\ (dayIndex = today -> WeeklyShots.shots e = 3)
  /\ (dayIndex <> today ->
      if (dayIndex =? 6) || (dayIndex =? 0)
      then 4 <= WeeklyShots.shots e <= 6
      else 2 <= WeeklyShots.shots e <= 4).
Proof.
  cbv zeta. unfold weeklyShots. cbv zeta.
  destruct ((index + 1) mod 7 =? today) eqn:Htoday.
  - apply Z.eqb_eq in Htoday. cbn [ret fst WeeklyShots.day WeeklyShots.shots].
    split; [reflexivity|]. split; [reflexivity | contradiction].
  - apply Z.eqb_neq in Htoday.
    cbv beta iota delta [bind Math_random ret fst].
    cbn [WeeklyShots.day WeeklyShots.shots].
    pose proof (Math_floor_scaled _ 3 (random_range k) ltac:(lia)) as Hf.
    change (inject_Z 3) with 3%Q in Hf.
    split; [reflexivity|]. split; [contradiction|]. intros _.
    destruct (((index + 1) mod 7 =? 6) || ((index + 1) mod 7 =? 0)); lia.
Qed.

Lemma generateWeeklyData_pushed (k : nat) :
  Forall2 (fun xi e =>
             let dayIndex := (snd xi + 1) mod 7 in
             WeeklyShots.day e = fst xi
             /\ (dayIndex = getDay tz clock -> WeeklyShots.shots e = 3)
             /\ (dayIndex <> getDay tz clock ->
                 if (dayIndex =? 6) || (dayIndex =? 0)
                 then 4 <= WeeklyShots.shots e <= 6
                 else 2 <= WeeklyShots.shots e <= 4))
          (combine weekDays (up_from 0 (length weekDays)))
          (fst (generateWeeklyData tz random clock k)).
Proof.
  unfold generateWeeklyData. cbv zeta.
  pose proof (Array_map_pushed (weeklyShots random (getDay tz clock)) weekDays 0 k) as H.
  apply (Forall2_impl _ _ _ _ H). intros [day index] e [k' ->].
  apply weeklyShots_ok.
Qed.

(** Every entry of [hourPatterns] is positive. *)
Lemma baseCount_of_range (hour : Z) : 0 <= baseCount_of hour <= 15.
Proof.
  unfold baseCount_of.
  destruct (hourPatterns !! hour) as [n|] eqn:Hlookup; [|lia].
  apply elem_of_list_to_map_2 in Hlookup.
  repeat (apply elem_of_cons in Hlookup;
          destruct Hlookup as [Heq | Hlookup]; [injection Heq as -> ->; simpl; lia|]).
  now apply elem_of_nil in Hlookup.
Qed.

Lemma hourlyCount_ok (hour : Z) (k : nat) :
  let e := fst (hourlyCount random hour k) in
  HourlyCount.hour e = hour
  /\ 0 <= HourlyCount.count e
  /\ baseCount_of hour - 1 <= HourlyCount.count e <= baseCount_of hour + 1.
Proof.
  cbv zeta. unfold hourlyCount. cbv beta iota zeta delta [bind Math_random ret fst].
  cbn [HourlyCount.hour HourlyCount.count].
  pose proof (Math_floor_scaled _ 3 (random_range k) ltac:(lia)) as Hf.
  change (inject_Z 3) with 3%Q in Hf.
  pose proof (baseCount_of_range hour). lia.
Qed.

Lemma generateHourlyDistribution_pushed (k : nat) :
  Forall2 (fun hour e =>
             HourlyCount.hour e = hour
             /\ 0 <= HourlyCount.count e
             /\ baseCount_of hour - 1 <= HourlyCount.count e <= baseCount_of hour + 1)
          (up_from 0 24) (fst (generateHourlyDistribution random k)).
Proof.
  unfold generateHourlyDistribution.
  destruct (for_up_push (hourlyCount random) 24 0 [] k) as (l & -> & HF).
  simpl app. apply (Forall2_impl _ _ _ _ HF). intros hour e [k' ->].
  apply hourlyCount_ok.
Qed.

End Charts.

(** X12. [generateWeeklyData] returns one entry per day, named Mon to
    Sun in this order; every count is between 1 and 6; the entry of the
    day of the week of the call is exactly 3; any other weekday has 2 to
    4 shots, any other Saturday or Sunday 4 to 6. *)
Theorem generateWeeklyData_shape
    (tz : Locale) (random : nat -> Q) (clock : Z) (k : nat) :
  unit_interval random ->
  let week := fst (generateWeeklyData tz random clock k) in
  let today := getDay tz clock in
  map WeeklyShots.day week = weekDays
  /\ Forall (fun e => 1 <= WeeklyShots.shots e <= 6) week
  /\ Forall2 (fun dayIndex e =>
                (dayIndex = today -> WeeklyShots.shots e = 3)
                /\ (dayIndex <> today ->
                    if (dayIndex =? 6) || (dayIndex =? 0)
                    then 4 <= WeeklyShots.shots e <= 6
                    else 2 <= WeeklyShots.shots e <= 4))
             [1; 2; 3; 4; 5; 6; 0] week.
Proof.
  intros Hrandom week today.
  pose proof (generateWeeklyData_pushed tz random clock Hrandom k) as H.
  fold week in H. fold today in H. cbv zeta in H.
  split; [|split].
  - apply Forall2_combine_l in H; [|reflexivity].
    rewrite <- (map_id weekDays). apply Forall2_map_eq.
    apply (Forall2_impl _ _ _ _ H). intros day e (index & Hday & _). exact Hday.
  - apply Forall2_combine_r in H; [|reflexivity].
    apply (Forall2_Forall_right _ (up_from 0 (length weekDays))).
    apply (Forall2_impl _ _ _ _ H). intros index e (day & _ & Htoday & Hother).
    cbn [fst snd] in *.
    destruct (Z.eq_dec ((index + 1) mod 7) today) as [Heq|Hne].
    + rewrite (Htoday Heq). lia.
    + specialize (Hother Hne). destruct (_ || _); lia.
  - apply Forall2_combine_r in H; [|reflexivity].
    change [1; 2; 3; 4; 5; 6; 0]
      with (map (fun index => (index + 1) mod 7) (up_from 0 (length weekDays))).
    apply Forall2_fmap_l.
    apply (Forall2_impl _ _ _ _ H). intros index e (day & _ & Htoday & Hother).
    split; assumption.
Qed.

(** *** Brew history *)

Lemma round1_le (x y : Q) : (x <= y)%Q -> (round1 x <= round1 y)%Q.
Proof.
  intros H. unfold round1.
  assert (Hr : Math_round (x * 10) <= Math_round (y * 10))
    by (apply Math_round_le; lra).
  rewrite Zle_Qle in Hr.
  assert (Hdiv : forall q : Q, (q / 10 == q * (1 # 10))%Q) by (intros q; field).
  rewrite !Hdiv. lra.
Qed.

Section BrewRanges.
Variable now : Z.
Variable tz : Locale.
Variable random : nat -> Q.
Hypothesis random_range : unit_interval random.

Lemma draw_rating_range (k : nat) :
  fst (draw_rating random k) = 0 \/ 3 <= fst (draw_rating random k) <= 5.
Proof.
  unfold draw_rating. cbv beta iota delta [bind Math_random].
  destruct (random k <? 0.25)%Q; [|left; reflexivity].
  destruct (random (S k) >? 0.2)%Q; cbn [ret fst]; right; [|lia].
  pose proof (Math_floor_scaled _ 2 (random_range (S (S k))) ltac:(lia)) as Hf.
  change (inject_Z 2) with 2%Q in Hf. lia.
Qed.

(** Rounding to one decimal stays between two bounds that have one
    decimal themselves. *)
Lemma round1_between (a b x : Q) :
  (round1 a == a)%Q -> (round1 b == b)%Q ->
  (a <= x <= b)%Q -> (a <= round1 x <= b)%Q.
Proof.
  intros Ha Hb [Hax Hxb].
  pose proof (round1_le a x Hax). pose proof (round1_le x b Hxb). lra.
Qed.

Lemma brew_in_range_ok (daysAgo : Z) (k : nat) :
  brew_in_range (fst (brew now random daysAgo k)).
Proof.
  unfold brew. cbv beta iota zeta delta [bind Math_random].
  destruct (draw_brewHour random k) as [h k1].
  pose proof (draw_rating_range (S (S (S (S (S (S (S k1)))))))) as Hrating.
  destruct (draw_rating random _) as [rating k2]. cbn [ret fst] in *.
  pose proof (random_range (S k1)) as H1.
  pose proof (random_range (S (S k1))) as H2.
  pose proof (random_range (S (S (S k1)))) as H3.
  pose proof (random_range (S (S (S (S k1))))) as H4.
  pose proof (random_range (S (S (S (S (S k1)))))) as H5.
  pose proof (random_range (S (S (S (S (S (S k1))))))) as H6.
  unfold brew_in_range.
  cbn [BrewRecord.durationMs BrewRecord.rating BrewRecord.doseWeight
       BrewRecord.ratio BrewRecord.yieldWeight BrewRecord.peakPressure
       BrewRecord.avgTemperature BrewRecord.avgFlowRate].
  split; [|split; [exact Hrating|]].
  { pose proof (Math_floor_scaled _ 10000 H1 ltac:(lia)) as Hf.
    change (inject_Z 10000) with 10000%Q in Hf. lia. }
  split; [apply (round1_between 17 21); [reflexivity | reflexivity |]; lra|].
  split; [apply (round1_between 1.8 2.5); [reflexivity | reflexivity |]; lra|].
  split; [apply (round1_between 30.6 52.5); [reflexivity | reflexivity |]; nra|].
  split; [apply (round1_between 8.2 10); [reflexivity | reflexivity |]; lra|].
  split; [apply (round1_between 92.5 96); [reflexivity | reflexivity |]; lra | apply (round1_between 1.8 3); [reflexivity | reflexivity |]; lra].
Qed.

Lemma draw_numBrews_range (daysAgo : Z) (isWeekend isFriday : bool) (k : nat) :
  let n := fst (draw_numBrews random daysAgo isWeekend isFriday k) in
  2 <= n <= 7 /\ (daysAgo = 0 -> 3 <= n <= 5).
Proof.
  cbv zeta. unfold draw_numBrews.
  pose proof (Math_floor_scaled _ 3 (random_range k) ltac:(lia)) as H3.
  pose proof (Math_floor_scaled _ 4 (random_range k) ltac:(lia)) as H4.
  change (inject_Z 3) with 3%Q in H3. change (inject_Z 4) with 4%Q in H4.
  destruct (daysAgo =? 0) eqn:Hd.
  - cbv beta iota delta [bind Math_random ret fst]. lia.
  - apply Z.eqb_neq in Hd.
    destruct isWeekend; [|destruct isFriday];
      cbv beta iota delta [bind Math_random ret fst]; lia.
Qed.

(** A day of the loop pushes records made by [brew] for that day: at
    most 7, and 3 to 5 of them when it is today. *)
Lemma brewDay_pushes (daysAgo : Z) (brews : list BrewRecord.t) (k : nat) :
  exists added,
    fst (brewDay now tz random daysAgo brews k) = brews ++ added
    /\ Forall (fun b => exists k', b = fst (brew now random daysAgo k')) added
    /\ (length added <= 7)%nat
    /\ (daysAgo = 0 -> (3 <= length added <= 5)%nat).
Proof.
  unfold brewDay. cbv zeta. unfold bind at 1.
  set (isWeekend := (_ || _)). set (isFriday := (_ =? 5)).
  pose proof (draw_numBrews_range daysAgo isWeekend isFriday k) as Hnum.
  destruct (draw_numBrews random daysAgo isWeekend isFriday k) as [numBrews k1].
  cbn [fst] in Hnum. cbv zeta in Hnum. destruct Hnum as [Hnum Htoday].
  unfold bind at 1.
  pose proof (not_today_and_chance_today random 0.05 k1) as Hskip.
  destruct (not_today_and_chance random daysAgo 0.05 k1) as [skip k2] eqn:Hchance.
  destruct skip.
  - exists []. cbn [ret fst]. split; [now rewrite app_nil_r|].
    split; [constructor|]. split; [simpl; lia|].
    intros ->. rewrite Hchance in Hskip. discriminate Hskip.
  - destruct (for_up_push (fun _ => brew now random daysAgo) (Z.to_nat numBrews) 0 brews k2)
      as (added & Hadded & Hpushed).
    exists added. split; [exact Hadded|].
    assert (Hlen : length added = Z.to_nat numBrews).
    { apply Forall2_length in Hpushed. now rewrite up_from_length in Hpushed. }
    split; [|split; [lia | intros Hd; specialize (Htoday Hd); lia]].
    apply (Forall2_Forall_right _ (up_from 0 (Z.to_nat numBrews))).
    apply (Forall2_impl _ _ _ _ Hpushed). intros _ b Hb. exact Hb.
Qed.

(** The records of a history: a permutation of records made by [brew]
    for the days 0 to 20, between 3 and 145 of them. *)
Lemma generateBrewHistory_origin (k : nat) :
  exists pushed,
    Permutation pushed (fst (generateBrewHistory now tz random k))
    /\ Forall (fun b => exists daysAgo k',
                 0 <= daysAgo <= 20 /\ b = fst (brew now random daysAgo k')) pushed
    /\ (3 <= length pushed <= 145)%nat.
Proof.
  unfold generateBrewHistory, bind.
  pose proof (for_up_invariant
                (fun i brews =>
                   Forall (fun b => exists daysAgo k',
                             0 <= daysAgo <= 20 /\ b = fst (brew now random daysAgo k'))
                          brews
                   /\ (0 < i -> (3 <= length brews)%nat)
                   /\ Z.of_nat (length brews) <= 7 * i - (if 0 <? i then 2 else 0))
                (brewDay now tz random) 21 0 [] k) as Hinv.
  cbv beta in Hinv.
  destruct (for_up 21 0 (brewDay now tz random) [] k) as [pushed k1].
  cbn [ret fst] in *. exists pushed.
  split; [apply (Array_sort_Permutation BrewRecord.timestamp)|].
  destruct Hinv as (Hall & Hmin & Hmax).
  - intros j a k' [Hj0 Hj1] (Ha & Hamin & Hamax).
    destruct (brewDay_pushes j a k') as (added & -> & Hadded & Hlen & Htoday).
    rewrite length_app. split; [|split].
    + apply Forall_app. split; [exact Ha|].
      apply (List.Forall_impl _ (P := fun b => exists k'', b = fst (brew now random j k'')));
        [|exact Hadded].
      intros b [k'' ->]. exists j, k''. split; [lia | reflexivity].
    + intros _. destruct (Z.eq_dec j 0) as [->|Hne]; [specialize (Htoday eq_refl); lia|].
      specialize (Hamin ltac:(lia)). lia.
    + destruct (Z.eq_dec j 0) as [->|Hne].
      * specialize (Htoday eq_refl). simpl in *. lia.
      * replace (0 <? j) with true in Hamax by (symmetry; apply Z.ltb_lt; lia).
        replace (0 <? j + 1) with true by (symmetry; apply Z.ltb_lt; lia). lia.
  - split; [constructor|]. split; [lia | simpl; lia].
  - split; [exact Hall|]. simpl in Hmax. specialize (Hmin ltac:(lia)). lia.
Qed.

(** What holds of every record that [brew] can make for a day of the
    history holds of every record of the history. *)
Lemma generateBrewHistory_Forall (P : BrewRecord.t -> Prop) (k : nat) :
  (forall daysAgo k', 0 <= daysAgo <= 20 -> P (fst (brew now random daysAgo k'))) ->
  Forall P (fst (generateBrewHistory now tz random k)).
Proof.
  intros HP. destruct (generateBrewHistory_origin k) as (pushed & Hperm & Hall & _).
  apply (Permutation_Forall Hperm).
  apply (List.Forall_impl _ (P := fun b => exists daysAgo k',
                                 0 <= daysAgo <= 20 /\ b = fst (brew now random daysAgo k')));
    [|exact Hall].
  intros b (daysAgo & k' & Hd & ->). now apply HP.
Qed.

End BrewRanges.

(** X13. Started at any point of the random sequence,
    [generateBrewHistory] returns between 3 and 145 records, and in each
    of them: the duration is 25000 to 34999 ms; the rating is 0 or 3 to 5;
    the dose is 17 to 21 g, the ratio 1.8 to 2.5, the yield 30.6 to
    52.5 g, the peak pressure 8.2 to 10 bar, the temperature 92.5 to
    96 degrees and the flow 1.8 to 3 g/s, all after rounding. *)
Theorem generateBrewHistory_ranges
    (now : Z) (tz : Locale) (random : nat -> Q) (k : nat) :
  unit_interval random ->
  let brews := fst (generateBrewHistory now tz random k) in
  (3 <= length brews <= 145)%nat /\ Forall brew_in_range brews.
Proof.
  intros Hrandom brews. split.
  - destruct (generateBrewHistory_origin now tz random Hrandom k)
      as (pushed & Hperm & _ & Hlen).
    fold brews in Hperm. now rewrite <- (Permutation_length Hperm).
  - apply generateBrewHistory_Forall; [exact Hrandom|].
    intros daysAgo k' _. now apply brew_in_range_ok.
Qed.

Lemma generateBrewHistory_ranges_witness :
  let brews := fst (generateBrewHistory noon UTC half O) in
  (3 <= length brews <= 145)%nat /\ Forall brew_in_range brews.
Proof. exact (generateBrewHistory_ranges noon UTC half O half_range). Defined.


(** *** Power history *)

Lemma Math_round_near (x : Q) :
  (x - (1 # 2) < inject_Z (Math_round x) <= x + (1 # 2))%Q.
Proof.
  unfold Math_round.
  pose proof (Qfloor_le (x + (1 # 2))) as Hlo.
  pose proof (Qlt_floor (x + (1 # 2))) as Hhi.
  rewrite inject_Z_plus in Hhi. change (inject_Z 1) with 1%Q in Hhi. lra.
Qed.

Lemma round4_near (x : Q) : (x - 0.00005 < round4 x <= x + 0.00005)%Q.
Proof.
  unfold round4. pose proof (Math_round_near (x * 10000)) as H.
  assert (Hdiv : forall q : Q, (q / 10000 == q * (1 # 10000))%Q) by (intros q; field).
  rewrite Hdiv. lra.
Qed.

Lemma Math_round_between (a b : Z) (x : Q) :
  (inject_Z a <= x <= inject_Z b)%Q -> a <= Math_round x <= b.
Proof.
  intros [Ha Hb]. split.
  - rewrite <- (Math_round_Z a). now apply Math_round_le.
  - rewrite <- (Math_round_Z b). now apply Math_round_le.
Qed.

Section PowerRanges.
Variable now : Z.
Variable tz : Locale.
Variable random : nat -> Q.
Hypothesis random_range : unit_interval random.

Lemma find_session_by_hour (h : Q) :
  (session_hour h ->
   exists intensity minutes,
     find_session h = (true, intensity, minutes) /\ (0 <= minutes)%Q)
  /\ (~ session_hour h -> find_session h = (false, 0%Q, 0%Q)).
Proof.
  unfold session_hour, find_session, usageSessions, in_session.
  cbn [List.find startHour duration intensity].
  unfold Qgeb, Qltb.
  repeat match goal with
         | |- context [Qlt_le_dec ?a ?b] => destruct (Qlt_le_dec a b)
         end; cbn [negb andb startHour duration intensity];
    (split; [intros Hs;
             first [exfalso; lra | eexists _, _; split; [reflexivity | lra]]
            | intros Hs; first [reflexivity | exfalso; apply Hs; lra]]).
Qed.

(** The values drawn for a sample, by the hour of the sample. *)
Lemma draw_power_by_hour (h : Q) (k : nat) :
  let '(a, m, e) := fst (draw_power random h k) in
  (1 <= a < 1700)%Q /\ (3 <= m < 2200)%Q
  /\ (session_hour h -> (100 <= a)%Q /\ (250 <= m)%Q)
  /\ (night_hour h -> (a < 3)%Q /\ (m < 6)%Q)
  /\ (~ session_hour h -> ~ night_hour h ->
      (a = 2%Q /\ m = 5%Q) \/ ((150 <= a < 300)%Q /\ (300 <= m < 500)%Q)).
Proof.
  pose proof (random_range k) as Hr0. pose proof (random_range (S k)) as Hr1.
  pose proof (random_range (S (S k))) as Hr2.
  destruct (find_session_by_hour h) as [Hin Hout].
  unfold draw_power.
  destruct (find_session h) as [[inSession sI] mins] eqn:Hfind.
  destruct inSession.
  - assert (Hs : session_hour h).
    { destruct (Qlt_le_dec h 6.5); destruct (Qlt_le_dec h 9);
        destruct (Qlt_le_dec h 14); destruct (Qlt_le_dec h 16);
        destruct (Qlt_le_dec h 18); destruct (Qlt_le_dec h 20);
        try (unfold session_hour; lra);
        (assert (Hn : ~ session_hour h) by (unfold session_hour; lra);
         specialize (Hout Hn); discriminate Hout). }
    destruct (Hin Hs) as (sI' & mins' & Heq & Hmins). injection Heq as <- <-.
    assert (Hnight : ~ night_hour h) by (unfold session_hour, night_hour in *; lra).
    destruct (mins <? 20)%Q eqn:Hwarm.
    + apply Qltb_true in Hwarm. cbv beta iota delta [bind Math_random ret fst].
      assert (Hw : (mins / 20 == mins * (1 # 20))%Q) by field.
      split; [rewrite Hw; lra|]. split; [rewrite Hw; lra|].
      split; [intros _; rewrite Hw; lra|].
      split; [intros Hn | intros Hns]; contradiction.
    + cbv beta iota delta [bind Math_random].
      destruct (random k <? sI)%Q; [destruct (random k <? sI * 0.6)%Q|];
        cbv beta iota delta [bind Math_random ret fst];
        (split; [lra|]; split; [lra|]; split; [intros _; lra|];
         split; [intros Hn | intros Hns]; contradiction).
  - assert (Hs : ~ session_hour h).
    { intros Hs. destruct (Hin Hs) as (? & ? & Heq & _). discriminate Heq. }
    destruct ((h >=? 22)%Q || (h <? 5)%Q) eqn:Hnight.
    + assert (Hn : night_hour h).
      { apply orb_prop in Hnight.
        destruct Hnight as [Hn|Hn]; [apply Qgeb_true in Hn | apply Qltb_true in Hn];
          unfold night_hour; lra. }
      cbv beta iota delta [bind Math_random ret fst].
      split; [lra|]. split; [lra|]. split; [intros Hs'; contradiction|].
      split; [intros _; lra | intros _ Hnn; contradiction].
    + apply orb_false_elim in Hnight. destruct Hnight as [Hge Hlt].
      assert (Hday : ~ night_hour h).
      { unfold night_hour, Qgeb, Qltb in *.
        destruct (Qlt_le_dec h 22); destruct (Qlt_le_dec h 5);
          try discriminate; lra. }
      cbv beta iota delta [bind Math_random].
      destruct (random k >? 0.92)%Q; cbv beta iota delta [bind Math_random ret fst].
      * split; [lra|]. split; [lra|]. split; [intros Hs'; contradiction|].
        split; [intros Hn; contradiction | intros _ _; right; lra].
      * split; [lra|]. split; [lra|]. split; [intros Hs'; contradiction|].
        split; [intros Hn; contradiction | intros _ _; left; split; reflexivity].
Qed.

(** The sample pushed at turn [i], from any point of the sequence. *)
Lemma powerSample_facts (i : Z) (k : nat) :
  power_in_range (fst (powerSample now tz random i k))
  /\ power_by_hour tz (fst (powerSample now tz random i k)).
Proof.
  unfold powerSample. cbv beta iota zeta delta [bind].
  change (inject_Z (getHours tz ((now - i * intervalSeconds) * 1000))
          + inject_Z (getMinutes tz ((now - i * intervalSeconds) * 1000)) / 60)%Q
    with (hourOfDay tz (now - i * intervalSeconds)).
  set (h := hourOfDay tz (now - i * intervalSeconds)).
  pose proof (draw_power_by_hour h k) as Hhour.
  pose proof (draw_power_ok random random_range h k) as Hdraw.
  destruct (draw_power random h k) as [[[a m] e] k1].
  cbn [fst] in Hhour, Hdraw. cbn [ret fst].
  destruct Hhour as (Ha & Hm & Hsession & Hnight & Hday).
  destruct Hdraw as [_ He].
  assert (Havg : 1 <= Math_round a <= 1700)
    by (apply Math_round_between; change (inject_Z 1) with 1%Q;
        change (inject_Z 1700) with 1700%Q; lra).
  assert (Hmax : 3 <= Math_round m <= 2200)
    by (apply Math_round_between; change (inject_Z 3) with 3%Q;
        change (inject_Z 2200) with 2200%Q; lra).
  split.
  - unfold power_in_range.
    cbn [PowerSample.avgWatts PowerSample.maxWatts PowerSample.kwhConsumed].
    split; [exact Havg|]. split; [exact Hmax|].
    assert (Hdiv : forall q : Q, (q / 3600000 == q * (1 # 3600000))%Q)
      by (intros q; field).
    pose proof (Math_round_near a) as Hnear.
    destruct He as [[Hlow He] | [Hhigh He]].
    + assert (Hk : (round4 e == 0.0001)%Q) by now apply round4_standby.
      assert (Hsmall : 1 <= Math_round a <= 3)
        by (apply Math_round_between; change (inject_Z 1) with 1%Q;
            change (inject_Z 3) with 3%Q; lra).
      destruct Hsmall as [Hs1 Hs3]. rewrite Zle_Qle in Hs1, Hs3.
      change (inject_Z 1) with 1%Q in Hs1. change (inject_Z 3) with 3%Q in Hs3.
      rewrite Hdiv, Hk. lra.
    + pose proof (round4_near e) as Hr4.
      assert (He' : (e == a * (1 # 12000))%Q) by (rewrite He; field).
      assert (Hint : 83 <= Math_round (e * 10000) <= 1417)
        by (apply Math_round_between; change (inject_Z 83) with 83%Q;
            change (inject_Z 1417) with 1417%Q; lra).
      destruct Hint as [Hi1 Hi2]. rewrite Zle_Qle in Hi1, Hi2.
      change (inject_Z 83) with 83%Q in Hi1. change (inject_Z 1417) with 1417%Q in Hi2.
      assert (Hk : (round4 e == inject_Z (Math_round (e * 10000)) * (1 # 10000))%Q)
        by (unfold round4; field).
      rewrite Hdiv. lra.
  - unfold power_by_hour.
    cbn [PowerSample.timestamp PowerSample.avgWatts PowerSample.maxWatts]. fold h.
    split; [|split].
    + intros Hs. destruct (Hsession Hs) as [H100 H250]. split.
      * apply (Math_round_between 100 1700). change (inject_Z 100) with 100%Q.
        change (inject_Z 1700) with 1700%Q. lra.
      * apply (Math_round_between 250 2200). change (inject_Z 250) with 250%Q.
        change (inject_Z 2200) with 2200%Q. lra.
    + intros Hn. destruct (Hnight Hn) as [H3 H6]. split.
      * apply (Math_round_between 1 3). change (inject_Z 1) with 1%Q.
        change (inject_Z 3) with 3%Q. lra.
      * apply (Math_round_between 3 6). change (inject_Z 3) with 3%Q.
        change (inject_Z 6) with 6%Q. lra.
    + intros Hns Hnn. destruct (Hday Hns Hnn) as [[-> ->] | [H150 H300]].
      * left. split; reflexivity.
      * right. split.
        -- apply (Math_round_between 150 300). change (inject_Z 150) with 150%Q.
           change (inject_Z 300) with 300%Q. lra.
        -- apply (Math_round_between 300 500). change (inject_Z 300) with 300%Q.
           change (inject_Z 500) with 500%Q. lra.
Qed.

(** From any point of the sequence the loop pushes the samples of the
    turns 287 down to 0. *)
Lemma generatePowerHistory_pushed_at (k : nat) :
  Forall2 (fun i s => exists k', s = fst (powerSample now tz random i k'))
          (down_from 287 288) (fst (generatePowerHistory now tz random k)).
Proof.
  unfold generatePowerHistory.
  destruct (for_down_push (powerSample now tz random) (Z.to_nat numSamples)
              (numSamples - 1) [] k) as (l & -> & HF).
  exact HF.
Qed.

End PowerRanges.

(** X14. Started at any point of the random sequence, every sample of
    [generatePowerHistory] has [avgWatts] from 1 to 1700, [maxWatts] from
    3 to 2200 and [kwhConsumed] from 0.0001 to 0.1417, and its
    [kwhConsumed] differs from [avgWatts * 300 / 3600000] by at most
    0.00015. *)
Theorem generatePowerHistory_ranges
    (now : Z) (tz : Locale) (random : nat -> Q) (k : nat) :
  unit_interval random ->
  Forall power_in_range (fst (generatePowerHistory now tz random k)).
Proof.
  intros Hrandom.
  apply (Forall2_Forall_right _ (down_from 287 288)).
  apply (Forall2_impl _ _ _ _ (generatePowerHistory_pushed_at now tz random k)).
  intros i s [k' ->]. now apply powerSample_facts.
Qed.

Lemma generatePowerHistory_ranges_witness :
  Forall power_in_range (fst (generatePowerHistory noon UTC half O)).
Proof. exact (generatePowerHistory_ranges noon UTC half O half_range). Defined.

(** X15. In every sample of [generatePowerHistory] the power follows the
    local hour of the timestamp: in a usage session (06:30 to 09:00, 14:00
    to 16:00, 18:00 to 20:00) [avgWatts] is at least 100 and [maxWatts] at
    least 250; in the night (22:00 to 05:00) [avgWatts] is at most 3 and
    [maxWatts] at most 6; at any other hour the sample is either the
    standby one (2 and 5) or an activity of 150 to 300 W with a maximum of
    300 to 500 W. *)
Theorem generatePowerHistory_by_hour
    (now : Z) (tz : Locale) (random : nat -> Q) (k : nat) :
  unit_interval random ->
  Forall (power_by_hour tz) (fst (generatePowerHistory now tz random k)).
Proof.
  intros Hrandom.
  apply (Forall2_Forall_right _ (down_from 287 288)).
  apply (Forall2_impl _ _ _ _ (generatePowerHistory_pushed_at now tz random k)).
  intros i s [k' ->]. now apply powerSample_facts.
Qed.

Lemma generatePowerHistory_by_hour_witness :
  Forall (power_by_hour UTC) (fst (generatePowerHistory noon UTC half O)).
Proof. exact (generatePowerHistory_by_hour noon UTC half O half_range). Defined.


(** *** Daily summaries *)

Lemma round2_le (x y : Q) : (x <= y)%Q -> (round2 x <= round2 y)%Q.
Proof.
  intros H. unfold round2.
  assert (Hr : Math_round (x * 100) <= Math_round (y * 100))
    by (apply Math_round_le; lra).
  rewrite Zle_Qle in Hr.
  assert (Hdiv : forall q : Q, (q / 100 == q * (1 # 100))%Q) by (intros q; field).
  rewrite !Hdiv. lra.
Qed.

Lemma round2_between (a b x : Q) :
  (round2 a == a)%Q -> (round2 b == b)%Q ->
  (a <= x <= b)%Q -> (a <= round2 x <= b)%Q.
Proof.
  intros Ha Hb [Hax Hxb].
  pose proof (round2_le a x Hax). pose proof (round2_le x b Hxb). lra.
Qed.

Lemma Math_ceil_between (a b : Z) (x : Q) :
  (inject_Z a <= x <= inject_Z b)%Q -> a <= Math_ceil x <= b.
Proof.
  intros [Ha Hb]. unfold Math_ceil. split.
  - rewrite <- (Qceiling_Z a). now apply Qceiling_resp_le.
  - rewrite <- (Qceiling_Z b). now apply Qceiling_resp_le.
Qed.

Section DailyRanges.
Variable now : Z.
Variable tz : Locale.
Variable random : nat -> Q.
Hypothesis random_range : unit_interval random.

Lemma draw_baseShots_bounds (isWeekend isFriday : bool) (k : nat) :
  2 <= fst (draw_baseShots random isWeekend isFriday k) <= 6.
Proof.
  unfold draw_baseShots.
  pose proof (Math_floor_scaled _ 3 (random_range k) ltac:(lia)) as H3.
  pose proof (Math_floor_scaled _ 2 (random_range k) ltac:(lia)) as H2.
  change (inject_Z 3) with 3%Q in H3. change (inject_Z 2) with 2%Q in H2.
  destruct isWeekend; [|destruct isFriday];
    cbv beta iota delta [bind Math_random ret fst]; lia.
Qed.

(** Every value drawn so far is in range. *)
Ltac use_draws :=
  repeat match goal with
         | H : ?r = fst (Math_random random ?k) |- _ =>
             cbn [Math_random fst] in H; pose proof (random_range k); subst r
         end.

Lemma dailySummary_ranges (daysAgo : Z) (k : nat) :
  let s := fst (dailySummary now tz random daysAgo k) in
  daily_in_range s
  /\ (daysAgo = 0 -> 4 <= DailySummary.shotCount s)
  /\ (daysAgo <> 0 -> DailySummary.shotCount s <= 7).
Proof.
  cbv zeta. unfold dailySummary. cbv zeta. rewrite (midnight_floor now).
  bind_step baseShots Hbase.
  pose proof (draw_baseShots_bounds
                ((getDay tz (midnight_of now daysAgo * 1000) =? 0)
                 || (getDay tz (midnight_of now daysAgo * 1000) =? 6))
                (getDay tz (midnight_of now daysAgo * 1000) =? 5) k) as Hrange.
  rewrite <- Hbase in Hrange.
  bind_step noUsage HnoUsage.
  bind_step shotCount HshotCount.
  assert (Hcount : (shotCount = 0 /\ daysAgo <> 0)
                   \/ (2 <= shotCount <= 9
                       /\ (daysAgo = 0 -> 4 <= shotCount)
                       /\ (daysAgo <> 0 -> shotCount <= 7))).
  { destruct noUsage.
    - left. split; [exact HshotCount|]. intros ->.
      rewrite (not_today_and_chance_today random 0.1) in HnoUsage. discriminate.
    - right. cbv beta iota delta [bind Math_random ret fst] in HshotCount.
      match type of HshotCount with
      | context [random ?n] =>
          pose proof (Math_floor_scaled _ 2 (random_range n) ltac:(lia)) as Hf
      end.
      change (inject_Z 2) with 2%Q in Hf.
      destruct (daysAgo =? 0) eqn:Hd;
        [apply Z.eqb_eq in Hd | apply Z.eqb_neq in Hd]; lia. }
  clear HshotCount Hbase HnoUsage.
  destruct (shotCount =? 0) eqn:Hzero.
  - apply Z.eqb_eq in Hzero.
    repeat (let v := fresh "r" in let H := fresh "Hr" in bind_step v H).
    use_draws. cbn [ret fst]. unfold daily_in_range.
    cbn [DailySummary.shotCount DailySummary.steamCycles DailySummary.onTimeMinutes
         DailySummary.totalKwh DailySummary.avgBrewTimeMs].
    split; [|split; [intros ->; lia | lia]].
    split; [lia|]. split; [lia|]. split; [|intros Hpos; lia].
    intros _. split; [reflexivity|]. split; [|lra].
    match goal with
    | |- _ <= Math_floor (random ?n * 20) <= _ =>
        pose proof (Math_floor_scaled _ 20 (random_range n) ltac:(lia)) as Hf
    end.
    change (inject_Z 20) with 20%Q in Hf. lia.
  - apply Z.eqb_neq in Hzero.
    assert (Hsc : 2 <= shotCount <= 9) by lia.
    repeat (let v := fresh "r" in let H := fresh "Hr" in bind_step v H).
    use_draws. cbn [ret fst]. unfold daily_in_range.
    cbn [DailySummary.shotCount DailySummary.steamCycles DailySummary.onTimeMinutes
         DailySummary.totalKwh DailySummary.avgBrewTimeMs].
    split; [|split; lia].
    split; [lia|]. split; [lia|]. split; [intros Hz; lia|]. intros _.
    pose proof (Math_floor_scaled _ 6000 H5 ltac:(lia)) as F6000.
    pose proof (Math_floor_scaled _ 10 H1 ltac:(lia)) as F10.
    pose proof (Math_floor_scaled _ 20 H0 ltac:(lia)) as F20.
    change (inject_Z 6000) with 6000%Q in F6000.
    change (inject_Z 10) with 10%Q in F10. change (inject_Z 20) with 20%Q in F20.
    assert (Hidle : 0 <= r4 <= 152).
    { destruct (shotCount >? 1); cbv beta iota delta [bind Math_random ret fst] in Hr4;
        [|lia].
      match type of Hr4 with
      | context [random ?n] =>
          pose proof (Math_floor_scaled _ 10 (random_range n) ltac:(lia)) as Hf
      end.
      change (inject_Z 10) with 10%Q in Hf. nia. }
    assert (Hsteam : 0 <= r7 <= 4).
    { destruct (_ <? _)%Q; cbv beta iota delta [bind Math_random ret fst] in Hr7.
      - match type of Hr7 with
        | context [random ?n] =>
            pose proof (Math_floor_scaled _ 4 (random_range n) ltac:(lia)) as Hf4;
            pose proof (Math_floor_scaled _ 2 (random_range n) ltac:(lia)) as Hf2
        end.
        change (inject_Z 4) with 4%Q in Hf4. change (inject_Z 2) with 2%Q in Hf2.
        destruct (shotCount >? 3); lia.
      - match type of Hr7 with
        | context [random ?n] =>
            pose proof (Math_floor_scaled _ 2 (random_range n) ltac:(lia)) as Hf2
        end.
        change (inject_Z 2) with 2%Q in Hf2. lia. }
    clear Hr4 Hr7.
    set (total := shotCount * (27000 + Math_floor (random k2 * 6000))).
    assert (Htotal : 54000 <= total <= 296991) by (unfold total; nia).
    assert (Hceil : 1 <= Math_ceil (inject_Z total / 60000) <= 5).
    { destruct Htotal as [Ht1 Ht2]. rewrite Zle_Qle in Ht1, Ht2.
      change (inject_Z 54000) with 54000%Q in Ht1.
      change (inject_Z 296991) with 296991%Q in Ht2.
      assert (Hdiv : (inject_Z total / 60000 == inject_Z total * (1 # 60000))%Q) by field.
      split.
      - pose proof (Qle_ceiling (inject_Z total / 60000)) as Hc.
        assert (Hpos : (inject_Z 0 < inject_Z (Qceiling (inject_Z total / 60000)))%Q)
          by (change (inject_Z 0) with 0%Q; rewrite Hdiv in Hc at 1; lra).
        rewrite <- Zlt_Qlt in Hpos. unfold Math_ceil. lia.
      - apply (Math_ceil_between 0 5). change (inject_Z 0) with 0%Q.
        change (inject_Z 5) with 5%Q. rewrite Hdiv. lra. }
    split; [lia|]. split; [exact Hsteam|]. split; [lia|].
    apply (round2_between 0.37 1.55); [reflexivity | reflexivity |].
    pose proof Hsc as [Hs2 Hs9]. rewrite Zle_Qle in Hs2, Hs9.
    change (inject_Z 2) with 2%Q in Hs2. change (inject_Z 9) with 9%Q in Hs9.
    assert (Hper : (0.12 <= inject_Z shotCount * (0.06 + random k4 * 0.04) <= 0.9)%Q)
      by nra.
    destruct (shotCount >? 4)%Z eqn:Hmany; [|lra].
    apply Z.gtb_lt in Hmany.
    assert (Hbonus : 1 <= shotCount - 4 <= 5) by lia.
    destruct Hbonus as [Hb1 Hb5]. rewrite Zle_Qle in Hb1, Hb5.
    change (inject_Z 1) with 1%Q in Hb1. change (inject_Z 5) with 5%Q in Hb5.
    lra.
Qed.

(** The date of a summary does not depend on the values drawn. *)
Lemma dailySummary_date (daysAgo : Z) (k : nat) :
  DailySummary.date (fst (dailySummary now tz random daysAgo k))
  = midnight_of now daysAgo.
Proof.
  unfold dailySummary. cbv zeta. rewrite (midnight_floor now).
  do 3 (let v := fresh "v" in let H := fresh "Hv" in bind_step v H).
  destruct (v1 =? 0);
    repeat (let v := fresh "r" in let H := fresh "Hr" in bind_step v H);
    reflexivity.
Qed.

(** From any point of the sequence the loop pushes the summaries of
    today back to 29 days ago, and the result is that list reversed. *)
Lemma generateDailyHistory_pushed_at (k : nat) :
  exists today earlier,
    fst (generateDailyHistory now tz random k) = rev earlier ++ [today]
    /\ (exists k', today = fst (dailySummary now tz random 0 k'))
    /\ Forall2 (fun daysAgo s => exists k', s = fst (dailySummary now tz random daysAgo k'))
               (up_from 1 29) earlier.
Proof.
  unfold generateDailyHistory.
  destruct (bind_inv
              (for_up 30 0 (fun daysAgo summaries =>
                              s <- dailySummary now tz random daysAgo ;;
                              ret (push summaries s)) [])
              (fun summaries => ret (rev summaries)) k)
    as (pushed & k1 & -> & Hpushed).
  destruct (for_up_push (dailySummary now tz random) 30 0 [] k) as (l & Hl & HF).
  rewrite Hl in Hpushed. simpl in Hpushed. subst pushed.
  change (up_from 0 30) with (0 :: up_from 1 29) in HF.
  inversion HF as [|? today ? earlier Htoday Hearlier]; subst.
  exists today, earlier. split; [reflexivity|]. split; assumption.
Qed.

End DailyRanges.

(** X16. Started at any point of the random sequence, every summary of
    [generateDailyHistory] has 0 or 2 to 9 shots.  A day without shots
    has no steam cycle, 0 to 19 minutes on and 0.05 to 0.1 kWh, both
    bounds included; a day with
    shots has an average brew time of 27000 to 32999 ms, 0 to 4 steam
    cycles, 16 to 200 minutes on and 0.37 to 1.55 kWh.  The last summary,
    today, has at least 4 shots; every earlier one has at most 7. *)
Theorem generateDailyHistory_ranges
    (now : Z) (tz : Locale) (random : nat -> Q) (k : nat) :
  unit_interval random ->
  let summaries := fst (generateDailyHistory now tz random k) in
  Forall daily_in_range summaries
  /\ exists earlier today,
       summaries = earlier ++ [today]
       /\ 4 <= DailySummary.shotCount today
       /\ Forall (fun s => DailySummary.shotCount s <= 7) earlier.
Proof.
  intros Hrandom summaries.
  destruct (generateDailyHistory_pushed_at now tz random k)
    as (today & earlier & Hsum & [k' Htoday] & Hearlier).
  fold summaries in Hsum. rewrite Hsum.
  assert (Hall : Forall (fun s => daily_in_range s /\ DailySummary.shotCount s <= 7)
                        earlier).
  { apply (Forall2_Forall_right _ (up_from 1 29)).
    apply (Forall2_impl_In _ _ _ _ Hearlier). intros daysAgo s Hin [k'' ->].
    apply (up_from_bounds 29 1) in Hin.
    destruct (dailySummary_ranges now tz random Hrandom daysAgo k'') as (Hr & _ & Hle).
    split; [exact Hr | apply Hle; lia]. }
  destruct (dailySummary_ranges now tz random Hrandom 0 k') as (Hr0 & Hge & _).
  rewrite <- Htoday in Hr0, Hge.
  split.
  - apply Forall_app. split; [apply Forall_rev | constructor; [exact Hr0 | constructor]].
    apply (List.Forall_impl _ (P := fun s => daily_in_range s
                                          /\ DailySummary.shotCount s <= 7));
      [now intros s [H _] | exact Hall].
  - exists (rev earlier), today. split; [reflexivity|]. split; [now apply Hge|].
    apply Forall_rev.
    apply (List.Forall_impl _ (P := fun s => daily_in_range s
                                          /\ DailySummary.shotCount s <= 7));
      [now intros s [_ H] | exact Hall].
Qed.

Lemma generateDailyHistory_ranges_witness :
  Forall daily_in_range (fst (generateDailyHistory noon UTC half O)).
Proof. apply (generateDailyHistory_ranges noon UTC half O half_range). Defined.

(** X17. Whatever the values drawn, every date of
    [generateDailyHistory] is a multiple of 86400, a midnight in UTC, that
    is not after [now]; and the date of the last summary is the midnight
    of the UTC day of [now]: [date <= now < date + 86400]. *)
Theorem generateDailyHistory_midnights
    (now : Z) (tz : Locale) (random : nat -> Q) (k : nat) :
  let summaries := fst (generateDailyHistory now tz random k) in
  Forall (fun s => DailySummary.date s mod day = 0 /\ DailySummary.date s <= now)
         summaries
  /\ exists earlier today,
       summaries = earlier ++ [today]
       /\ DailySummary.date today <= now < DailySummary.date today + day.
Proof.
  intros summaries.
  destruct (generateDailyHistory_pushed_at now tz random k)
    as (today & earlier & Hsum & [k' Htoday] & Hearlier).
  fold summaries in Hsum. rewrite Hsum.
  assert (Hmid : forall daysAgo, 0 <= daysAgo ->
             midnight_of now daysAgo mod day = 0 /\ midnight_of now daysAgo <= now).
  { intros daysAgo Hd. unfold midnight_of. split; [apply Z.mod_mul; discriminate|].
    pose proof (Z.mul_div_le now day ltac:(reflexivity)). unfold day in *. lia. }
  assert (Hdate : DailySummary.date today = midnight_of now 0)
    by (rewrite Htoday; apply dailySummary_date).
  split.
  - apply Forall_app. split.
    + apply Forall_rev. apply (Forall2_Forall_right _ (up_from 1 29)).
      apply (Forall2_impl_In _ _ _ _ Hearlier). intros daysAgo s Hin [k'' ->].
      apply (up_from_bounds 29 1) in Hin. rewrite dailySummary_date.
      apply Hmid. lia.
    + constructor; [|constructor]. rewrite Hdate. apply Hmid. lia.
  - exists (rev earlier), today. split; [reflexivity|]. rewrite Hdate.
    unfold midnight_of.
    pose proof (Z.mul_div_le now day ltac:(reflexivity)).
    pose proof (Z.mul_succ_div_gt now day ltac:(reflexivity)).
    unfold day in *. lia.
Qed.


Ltac eval_baseCount :=
  repeat match goal with
         | H : context [baseCount_of ?h] |- _ =>
             let v := eval vm_compute in (baseCount_of h) in
             change (baseCount_of h) with v in H
         end.

(** X18. [generateHourlyDistribution] returns 24 entries, for the hours
    0 to 23 in this order.  No count is negative and each is within 1 of
    the entry of [hourPatterns] for its hour (0 for an hour that the table
    lacks).  So the hours 7 and 8 always have at least 11 shots and every
    other hour at most 9, and an hour before 6 or after 20 has at most
    one. *)
Theorem generateHourlyDistribution_shape (random : nat -> Q) (k : nat) :
  unit_interval random ->
  let distribution := fst (generateHourlyDistribution random k) in
  map HourlyCount.hour distribution = up_from 0 24
  /\ Forall (fun e =>
       0 <= HourlyCount.count e
       /\ baseCount_of (HourlyCount.hour e) - 1 <= HourlyCount.count e
          <= baseCount_of (HourlyCount.hour e) + 1) distribution
  /\ Forall (fun e =>
       if (HourlyCount.hour e =? 7) || (HourlyCount.hour e =? 8)
       then 11 <= HourlyCount.count e
       else HourlyCount.count e <= 9) distribution
  /\ Forall (fun e =>
       HourlyCount.hour e < 6 \/ 20 < HourlyCount.hour e ->
       HourlyCount.count e <= 1) distribution.
Proof.
  intros Hrandom distribution.
  pose proof (generateHourlyDistribution_pushed random Hrandom k) as H.
  fold distribution in H.
  split; [|split; [|split]].
  - rewrite <- (map_id (up_from 0 24)). apply Forall2_map_eq.
    apply (Forall2_impl _ _ _ _ H). intros hour e (Hhour & _). exact Hhour.
  - apply (Forall2_Forall_right _ (up_from 0 24)).
    apply (Forall2_impl _ _ _ _ H). intros hour e (-> & Hcount). exact Hcount.
  - apply (Forall2_Forall_right _ (up_from 0 24)).
    apply (Forall2_impl_In _ _ _ _ H). intros hour e Hin (Hhour & H0 & Hbase).
    rewrite Hhour. simpl in Hin.
    repeat (destruct Hin as [<- | Hin]; [eval_baseCount; simpl; lia|]).
    contradiction.
  - apply (Forall2_Forall_right _ (up_from 0 24)).
    apply (Forall2_impl_In _ _ _ _ H). intros hour e Hin (Hhour & H0 & Hbase).
    rewrite Hhour. simpl in Hin.
    repeat (destruct Hin as [<- | Hin]; [eval_baseCount; simpl; lia|]).
    contradiction.
Qed.

Lemma generateWeeklyData_shape_witness :
  let week := fst (generateWeeklyData UTC half (noon * 1000) O) in
  map WeeklyShots.day week = weekDays
  /\ Forall (fun e => 1 <= WeeklyShots.shots e <= 6) week.
Proof.
  destruct (generateWeeklyData_shape UTC half (noon * 1000) O half_range)
    as (Hdays & Hshots & _).
  split; assumption.
Defined.

Lemma generateHourlyDistribution_shape_witness :
  map HourlyCount.hour (fst (generateHourlyDistribution half O)) = up_from 0 24.
Proof. apply (generateHourlyDistribution_shape half O half_range). Defined.

(** *** Statistics snapshot and the bundle *)

(** X19. Whatever [now] is, the snapshot of [generateDemoStats] agrees
    with itself: in the lifetime, daily, weekly and monthly blocks the
    total brew time is the number of shots times the average brew time and
    the average lies between the minimum and the maximum; the counts and
    the energy grow from the day to the week, the month and the lifetime;
    and the first shot, the last descale, backflush and group clean and
    the start of the session lie before [now], in this order. *)
Theorem generateDemoStats_consistent (now : Z) (k : nat) :
  let s := fst (generateDemoStats now k) in
  let lifetime := Statistics.lifetime s in
  let maintenance := Statistics.maintenance s in
  LifetimeStats.totalBrewTimeMs lifetime
  = LifetimeStats.totalShots lifetime * LifetimeStats.avgBrewTimeMs lifetime
  /\ LifetimeStats.minBrewTimeMs lifetime <= LifetimeStats.avgBrewTimeMs lifetime
     <= LifetimeStats.maxBrewTimeMs lifetime
  /\ Forall (fun p =>
       PeriodStats.totalBrewTimeMs p
       = PeriodStats.shotCount p * PeriodStats.avgBrewTimeMs p
       /\ PeriodStats.minBrewTimeMs p <= PeriodStats.avgBrewTimeMs p
          <= PeriodStats.maxBrewTimeMs p
       /\ LifetimeStats.minBrewTimeMs lifetime <= PeriodStats.minBrewTimeMs p
       /\ PeriodStats.maxBrewTimeMs p <= LifetimeStats.maxBrewTimeMs lifetime)
       [Statistics.daily s; Statistics.weekly s; Statistics.monthly s]
  /\ PeriodStats.shotCount (Statistics.daily s)
     <= PeriodStats.shotCount (Statistics.weekly s)
     <= PeriodStats.shotCount (Statistics.monthly s)
  /\ PeriodStats.shotCount (Statistics.monthly s) <= LifetimeStats.totalShots lifetime
  /\ (PeriodStats.totalKwh (Statistics.daily s)
      <= PeriodStats.totalKwh (Statistics.weekly s))%Q
  /\ (PeriodStats.totalKwh (Statistics.weekly s)
      <= PeriodStats.totalKwh (Statistics.monthly s))%Q
  /\ (PeriodStats.totalKwh (Statistics.monthly s) <= LifetimeStats.totalKwh lifetime)%Q
  /\ LifetimeStats.firstShotTimestamp lifetime
     < MaintenanceStats.lastDescaleTimestamp maintenance
     < MaintenanceStats.lastBackflushTimestamp maintenance
  /\ MaintenanceStats.lastBackflushTimestamp maintenance
     < MaintenanceStats.lastGroupCleanTimestamp maintenance
     < Statistics.sessionStartTimestamp s
  /\ Statistics.sessionStartTimestamp s < now
  /\ Statistics.sessionShots s <= PeriodStats.shotCount (Statistics.daily s).
Proof.
  cbn. unfold day.
  repeat match goal with
         | |- _ /\ _ => split
         | |- Forall _ _ => constructor
         end; try reflexivity; try lia; try (intro H; discriminate H).
Qed.

Section Bundle.
Variable now : Z.
Variable tz : Locale.
Variable random : nat -> Q.
Variable clock : Z.
Hypothesis random_range : unit_interval random.

Lemma generateBrewHistory_sorted_at (k : nat) :
  StronglySorted (fun a b => (BrewRecord.timestamp b <= BrewRecord.timestamp a)%Q)
                 (fst (generateBrewHistory now tz random k)).
Proof.
  unfold generateBrewHistory.
  destruct (bind_inv (for_up 21 0 (brewDay now tz random) [])
              (fun brews =>
                 ret (Array_sort
                        (fun a b => (BrewRecord.timestamp b - BrewRecord.timestamp a)%Q)
                        brews)) k) as (brews & k1 & -> & _).
  apply (Array_sort_sorted BrewRecord.timestamp).
Qed.

Lemma generatePowerHistory_timestamps_at (k : nat) :
  map PowerSample.timestamp (fst (generatePowerHistory now tz random k))
  = map (fun i => now - i * 300) (down_from 287 288).
Proof.
  apply Forall2_map_eq.
  apply (Forall2_impl _ _ _ _ (generatePowerHistory_pushed_at now tz random k)).
  intros i s [k' ->]. apply (powerSample_ok now tz random random_range i k').
Qed.

End Bundle.

(** X20. [getDemoExtendedStats] runs the six generators one after the
    other on the same random sequence.  Wherever in the sequence it
    starts, the bundle has the statistics of [generateDemoStats], 7 weekly
    entries, 24 hourly entries, 3 to 145 brew records sorted by descending
    timestamp inside the 21 days before [now], 288 power samples whose
    timestamps run from [now - 86100] to [now] in steps of 300, and 30
    daily summaries. *)
Theorem getDemoExtendedStats_bundle
    (now : Z) (tz : Locale) (random : nat -> Q) (clock : Z) (k : nat) :
  unit_interval random ->
  let r := fst (getDemoExtendedStats now tz random clock k) in
  ExtendedStatsResponse.stats r = fst (generateDemoStats now k)
  /\ length (ExtendedStatsResponse.weekly r) = 7%nat
  /\ length (ExtendedStatsResponse.hourlyDistribution r) = 24%nat
  /\ (3 <= length (ExtendedStatsResponse.brewHistory r) <= 145)%nat
  /\ Forall (in_window now) (ExtendedStatsResponse.brewHistory r)
  /\ StronglySorted
       (fun a b => (BrewRecord.timestamp b <= BrewRecord.timestamp a)%Q)
       (ExtendedStatsResponse.brewHistory r)
  /\ map PowerSample.timestamp (ExtendedStatsResponse.powerHistory r)
     = map (fun i => now - i * 300) (down_from 287 288)
  /\ length (ExtendedStatsResponse.dailyHistory r) = 30%nat.
Proof.
  intros Hrandom r. subst r. unfold getDemoExtendedStats.
  bind_step stats Hstats. bind_step weekly Hweekly.
  bind_step hourly Hhourly. bind_step brews Hbrews.
  bind_step samples Hsamples. bind_step summaries Hsummaries.
  cbn [ret fst ExtendedStatsResponse.stats ExtendedStatsResponse.weekly
       ExtendedStatsResponse.hourlyDistribution ExtendedStatsResponse.brewHistory
       ExtendedStatsResponse.powerHistory ExtendedStatsResponse.dailyHistory].
  split; [exact Hstats|].
  split.
  { rewrite Hweekly.
    pose proof (generateWeeklyData_pushed tz random clock Hrandom k0) as Hpushed.
    apply Forall2_length in Hpushed. now rewrite <- Hpushed. }
  split.
  { rewrite Hhourly.
    pose proof (generateHourlyDistribution_pushed random Hrandom k1) as Hpushed.
    apply Forall2_length in Hpushed. now rewrite <- Hpushed. }
  split.
  { rewrite Hbrews.
    destruct (generateBrewHistory_origin now tz random Hrandom k2)
      as (pushed & Hperm & _ & Hlen).
    now rewrite <- (Permutation_length Hperm). }
  split.
  { rewrite Hbrews. apply generateBrewHistory_Forall; [exact Hrandom|].
    intros daysAgo k' Hd. now apply (brew_ok now random Hrandom daysAgo k'). }
  split; [rewrite Hbrews; apply generateBrewHistory_sorted_at|].
  split; [rewrite Hsamples; now apply generatePowerHistory_timestamps_at|].
  rewrite Hsummaries.
  destruct (generateDailyHistory_pushed_at now tz random k4)
    as (today & earlier & -> & _ & Hearlier).
  apply Forall2_length in Hearlier. rewrite up_from_length in Hearlier.
  rewrite length_app, length_rev, <- Hearlier. reflexivity.
Qed.

Lemma getDemoExtendedStats_bundle_witness :
  length (ExtendedStatsResponse.powerHistory
            (fst (getDemoExtendedStats noon UTC half (noon * 1000) O))) = 288%nat.
Proof.
  destruct (getDemoExtendedStats_bundle noon UTC half (noon * 1000) O half_range)
    as (_ & _ & _ & _ & _ & _ & Hts & _).
  apply (f_equal (@length Z)) in Hts.
  now rewrite !length_map, down_from_length in Hts.
Defined.

End DemoStatsMore.
